(** * bondmcp-js: the request executor of [BondMCPClient]

    A shallow embedding of [src/client/client.ts] (constructor, [makeRequest],
    [handleError], [setApiKey]) and of the error classes of
    [src/types/index.ts], with the properties of the retry loop and of the
    error mapping.

    Modelling conventions.
    - A JavaScript [number] is an integer or [NaN]: every number the executor
      computes with (HTTP status, retry counts, delays in milliseconds, the
      value of [parseInt]) is an integer well inside the range where IEEE
      doubles are exact.  Fractions and infinities have no value in the
      model, and above [2 ^ 53] the arithmetic of the model is exact where
      JavaScript rounds: the configuration of a client holds integers, and
      a statement that depends on the size of a number bounds it.
    - A string is a sequence of code units below 256.
    - The error constructors convert their message with [ToString], which
      can throw a [TypeError].  [handleError] is the error that is built,
      [handleErrorThrows] tells when the conversion throws and none is, and
      [handleErrorResult] puts the two together.
    - The body of a response ([any] in the source) is a JSON value, plus
      [undefined] for an absent body.
    - [axiosInstance.request] is the transport.  One run of [makeRequest]
      calls it once per attempt, so a run is determined by the outcome of the
      call of each attempt: the transport is a function from the attempt
      index to that outcome.  A run yields its result together with the
      trace of the requests issued and the delays slept. *)

From Stdlib Require Import ZArith Ascii String List Lia Bool.
From stdpp Require Import base strings gmap pretty.
Import ListNotations.

Local Open Scope string_scope.
Local Open Scope Z_scope.

Set Warnings "-register-all".

(** ** JavaScript values *)

Inductive number : Type :=
| NaN
| Num (z : Z).

Inductive JsValue : Type :=
| JUndefined
| JNull
| JBool (b : bool)
| JNum (n : number)
| JStr (s : string)
| JArr (items : list JsValue)
| JObj (fields : list (string * JsValue)).

(** [ToBoolean] on numbers: [0] and [NaN] are falsy. *)
Definition num_truthy (n : number) : bool :=
  match n with
  | NaN => false
  | Num z => negb (z =? 0)
  end.

Definition str_truthy (s : string) : bool :=
  match s with
  | EmptyString => false
  | String _ _ => true
  end.

(** [ToBoolean]: [undefined], [null], [false], [0], [NaN] and the empty string
    are falsy, everything else (every array and object too) is truthy. *)
Definition truthy (v : JsValue) : bool :=
  match v with
  | JUndefined | JNull => false
  | JBool b => b
  | JNum n => num_truthy n
  | JStr s => str_truthy s
  | JArr _ | JObj _ => true
  end.

(** [a || b] *)
Definition jsOr (a b : JsValue) : JsValue :=
  if truthy a then a else b.

(** [a * b] on numbers *)
Definition num_mul (a b : number) : number :=
  match a, b with
  | Num x, Num y => Num (x * y)
  | _, _ => NaN
  end.

(** Own property of an object by key; [undefined] when there is none. *)
Fixpoint lookupField (k : string) (fields : list (string * JsValue)) : JsValue :=
  match fields with
  | [] => JUndefined
  | (k', v) :: rest => if String.eqb k k' then v else lookupField k rest
  end.

(** [v?.k]: [undefined] on [undefined] and [null]; on an object its own
    property; on any other value [undefined], which is right for every key
    that no built-in prototype defines, [message] among them. *)
Definition optChainGet (v : JsValue) (k : string) : JsValue :=
  match v with
  | JObj fields => lookupField k fields
  | _ => JUndefined
  end.

(** [ToString], as the [Error] constructor applies it to its argument and a
    template literal to its holes: the string it yields when it yields one
    ([toStringThrows] below tells when it throws instead), with an integer
    in decimal notation, as JavaScript writes it below [10 ^ 21]. *)
Fixpoint ToString (v : JsValue) : string :=
  match v with
  | JUndefined => "undefined"
  | JNull => "null"
  | JBool true => "true"
  | JBool false => "false"
  | JNum NaN => "NaN"
  | JNum (Num z) => pretty z
  | JStr s => s
  | JArr items =>
      (fix join (l : list JsValue) : string :=
         match l with
         | [] => ""
         | x :: rest =>
             let sx := match x with
                       | JUndefined | JNull => ""
                       | _ => ToString x
                       end in
             match rest with
             | [] => sx
             | _ :: _ => sx +:+ "," +:+ join rest
             end
         end) items
  | JObj _ => "[object Object]"
  end.

(** ** [parseInt] with no radix argument *)

(** The white space and line terminators that [parseInt] skips, among the
    code units below 256: tab, line feed, vertical tab, form feed, carriage
    return, space and no-break space. *)
Definition isWhiteSpace (a : ascii) : bool :=
  let n := Z.of_nat (nat_of_ascii a) in
  ((9 <=? n) && (n <=? 13)) || (n =? 32) || (n =? 160).

Fixpoint trimStart (s : string) : string :=
  match s with
  | EmptyString => EmptyString
  | String a rest => if isWhiteSpace a then trimStart rest else s
  end.

Definition digitValue (a : ascii) : option Z :=
  let n := Z.of_nat (nat_of_ascii a) in
  if (48 <=? n) && (n <=? 57) then Some (n - 48)
  else if (97 <=? n) && (n <=? 122) then Some (n - 87)
  else if (65 <=? n) && (n <=? 90) then Some (n - 55)
  else None.

Definition radixDigit (radix : Z) (a : ascii) : option Z :=
  match digitValue a with
  | Some d => if d <? radix then Some d else None
  | None => None
  end.

(** The value of the longest prefix of radix digits; [None] when the prefix
    is empty. *)
Fixpoint parseDigits (radix : Z) (s : string) (acc : option Z) : option Z :=
  match s with
  | EmptyString => acc
  | String a rest =>
      match radixDigit radix a with
      | Some d =>
          parseDigits radix rest
            (Some (match acc with Some x => x * radix + d | None => d end))
      | None => acc
      end
  end.

Definition stripSign (s : string) : Z * string :=
  match s with
  | String "-" rest => (-1, rest)
  | String "+" rest => (1, rest)
  | _ => (1, s)
  end.

Definition stripHexPrefix (s : string) : Z * string :=
  match s with
  | String "0" (String "x" rest) => (16, rest)
  | String "0" (String "X" rest) => (16, rest)
  | _ => (10, s)
  end.

(** [parseInt(s)]: the integer that the numeral denotes.  JavaScript
    returns the double nearest to it, which is the integer itself up to
    [2 ^ 53]. *)
Definition parseInt (s : string) : number :=
  let '(sign, s1) := stripSign (trimStart s) in
  let '(radix, s2) := stripHexPrefix s1 in
  match parseDigits radix s2 None with
  | Some v => Num (sign * v)
  | None => NaN
  end.

(** Strings of decimal digits, the notation that [pretty] prints *)
Definition isDecimalDigit (a : ascii) : bool :=
  let n := Z.of_nat (nat_of_ascii a) in
  (48 <=? n) && (n <=? 57).

Fixpoint decimalDigits (s : string) : bool :=
  match s with
  | EmptyString => true
  | String a rest => isDecimalDigit a && decimalDigits rest
  end.

(** ** The error classes of [types/index.ts] *)

Inductive ErrorClass : Type :=
| BondMCPErrorBase
| AuthenticationError
| AuthorizationError
| NotFoundError
| ValidationError
| RateLimitError
| ServerError
| NetworkError
| TimeoutError
| ConfigurationError.

Global Instance ErrorClass_eq_dec : EqDecision ErrorClass.
Proof. solve_decision. Defined.

(** An instance of [BondMCPError] or of one of its subclasses.  [retryAfter]
    is a field of [RateLimitError] alone: it is [None] in every other class.
    [statusCode] is [None] and [responseData] is [JUndefined] when the
    constructor is called without them. *)
Record BondMCPError : Type := mkBondMCPError {
  class : ErrorClass;
  message : string;
  statusCode : option Z;
  responseData : JsValue;
  retryAfter : option number
}.

(** [new C(message, statusCode, responseData)] for the classes other than
    [RateLimitError]; [super(message)] reaches [Error], which stores
    [ToString message]: the object that the call builds when that conversion
    does not throw. *)
Definition newError (c : ErrorClass) (msg : JsValue)
    (status : option Z) (data : JsValue) : BondMCPError :=
  {| class := c;
     message := ToString msg;
     statusCode := status;
     responseData := data;
     retryAfter := None |}.

(** [new RateLimitError(message, retryAfter, statusCode, responseData)] *)
Definition newRateLimitError (msg : JsValue) (after : number)
    (status : option Z) (data : JsValue) : BondMCPError :=
  {| class := RateLimitError;
     message := ToString msg;
     statusCode := status;
     responseData := data;
     retryAfter := Some after |}.

(** ** What axios hands to the executor *)

Module Axios.

Record Response : Type := mkResponse {
  status : Z;
  data : JsValue;
  headers : gmap string string
}.

(** An [AxiosError]: [code] and [response] are optional. *)
Record Error : Type := mkError {
  code : option string;
  message : string;
  response : option Response
}.

End Axios.

(** [error.code === c] *)
Definition codeIs (error : Axios.Error) (c : string) : bool :=
  match Axios.code error with
  | Some c' => String.eqb c' c
  | None => false
  end.

(** [headers[k] || '0'] *)
Definition headerOrZero (headers : gmap string string) (k : string) : string :=
  match headers !! k with
  | Some s => if str_truthy s then s else "0"
  | None => "0"
  end.

(** [BondMCPClient.handleError] *)
Definition handleError (error : Axios.Error) : BondMCPError :=
  if codeIs error "ECONNABORTED" || codeIs error "ETIMEDOUT" then
    newError TimeoutError
      (JStr ("Request timed out: " +:+ Axios.message error)) None JUndefined
  else if codeIs error "ECONNREFUSED" || codeIs error "ENOTFOUND" then
    newError NetworkError
      (JStr ("Network error: " +:+ Axios.message error)) None JUndefined
  else
    match Axios.response error with
    | None =>
        newError NetworkError
          (JStr ("Network error: " +:+ Axios.message error)) None JUndefined
    | Some resp =>
        let status := Axios.status resp in
        let data := Axios.data resp in
        let message :=
          jsOr (optChainGet data "message")
               (JStr ("HTTP " +:+ pretty status)) in
        let responseData := data in
        if status =? 401 then
          newError AuthenticationError message (Some status) responseData
        else if status =? 403 then
          newError AuthorizationError message (Some status) responseData
        else if status =? 404 then
          newError NotFoundError message (Some status) responseData
        else if status =? 422 then
          newError ValidationError message (Some status) responseData
        else if status =? 429 then
          let retryAfter :=
            num_mul
              (parseInt (headerOrZero (Axios.headers resp) "retry-after"))
              (Num 1000) in
          newRateLimitError message retryAfter (Some status) responseData
        else if status >=? 500 then
          newError ServerError message (Some status) responseData
        else
          newError BondMCPErrorBase message (Some status) responseData
    end.

(** ** The client: configuration and axios instance *)

(** The argument of the constructor: [BondMCPClientConfig], every field
    optional. *)
Module ClientConfig.

Record t : Type := mk {
  apiKey : option string;
  baseUrl : option string;
  timeout : option number;
  maxRetries : option number;
  retryDelay : option number;
  userAgent : option string
}.

(** [{}], the default argument of the constructor *)
Definition empty : t := mk None None None None None None.

End ClientConfig.

(** [Required<BondMCPClientConfig>], the type of [this.config].  The
    constructor is the only code that fills the numeric fields, each with
    [given || default], which is never [NaN]: they are integers, the numbers
    of the model. *)
Record RequiredConfig : Type := mkRequiredConfig {
  apiKey : string;
  baseUrl : string;
  timeout : Z;
  maxRetries : Z;
  retryDelay : Z;
  userAgent : string
}.

(** The part of the axios instance that the client writes: the settings
    handed to [axios.create], and [defaults.headers.common]. *)
Record AxiosInstance : Type := mkAxiosInstance {
  baseURL : string;
  instanceTimeout : Z;
  instanceHeaders : gmap string string;
  commonHeaders : gmap string string
}.

Record BondMCPClient : Type := mkBondMCPClient {
  axiosInstance : AxiosInstance;
  config : RequiredConfig
}.

(** [given || fallback] on an optional string *)
Definition strOr (given : option string) (fallback : string) : string :=
  match given with
  | Some s => if str_truthy s then s else fallback
  | None => fallback
  end.

(** [given || fallback] on an optional number, with an integer fallback *)
Definition numOr (given : option number) (fallback : Z) : Z :=
  match given with
  | Some (Num z) => if num_truthy (Num z) then z else fallback
  | Some NaN | None => fallback
  end.

(** The object literal of headers handed to [axios.create]; the spread
    [...(apiKey && { Authorization })] adds nothing for the empty key. *)
Definition createHeaders (cfg : RequiredConfig) : gmap string string :=
  let base : gmap string string :=
    <["User-Agent" := userAgent cfg]>
      (<["Accept" := "application/json"]>
         (<["Content-Type" := "application/json"]> ∅)) in
  if str_truthy (apiKey cfg)
  then <["Authorization" := "Bearer " +:+ apiKey cfg]> base
  else base.

(** [new BondMCPClient(config)].  [libraryCommon] is the content of
    [defaults.headers.common] that axios gives a fresh instance. *)
Definition constructor (libraryCommon : gmap string string)
    (given : ClientConfig.t) : BondMCPClient :=
  let cfg :=
    {| apiKey := strOr (ClientConfig.apiKey given) "";
       baseUrl := strOr (ClientConfig.baseUrl given) "https://api.bondmcp.com";
       timeout := numOr (ClientConfig.timeout given) 30000;
       maxRetries := numOr (ClientConfig.maxRetries given) 3;
       retryDelay := numOr (ClientConfig.retryDelay given) 1000;
       userAgent := strOr (ClientConfig.userAgent given) "bondmcp-js/2.1.0" |} in
  {| axiosInstance :=
       {| baseURL := baseUrl cfg;
          instanceTimeout := timeout cfg;
          instanceHeaders := createHeaders cfg;
          commonHeaders := libraryCommon |};
     config := cfg |}.

(** [setApiKey(apiKey)] *)
Definition setApiKey (client : BondMCPClient) (key : string) : BondMCPClient :=
  let cfg := config client in
  let inst := axiosInstance client in
  {| axiosInstance :=
       {| baseURL := baseURL inst;
          instanceTimeout := instanceTimeout inst;
          instanceHeaders := instanceHeaders inst;
          commonHeaders :=
            <["Authorization" := "Bearer " +:+ key]> (commonHeaders inst) |};
     config :=
       {| apiKey := key;
          baseUrl := baseUrl cfg;
          timeout := timeout cfg;
          maxRetries := maxRetries cfg;
          retryDelay := retryDelay cfg;
          userAgent := userAgent cfg |} |}.

(** [getConfig()]: a copy of the configuration *)
Definition getConfig (client : BondMCPClient) : RequiredConfig :=
  config client.

(** ** The executor *)

Inductive Method : Type := GET | POST | PUT | DELETE | PATCH.

Record RequestConfig : Type := mkRequestConfig {
  method : Method;
  endpoint : string;
  params : option JsValue;
  data : option JsValue;
  headers : option (gmap string string)
}.

(** The argument of [axiosInstance.request] *)
Record AxiosRequest : Type := mkAxiosRequest {
  reqMethod : Method;
  reqUrl : string;
  reqParams : option JsValue;
  reqData : option JsValue;
  reqHeaders : option (gmap string string)
}.

(** The outcome of one call of [axiosInstance.request]: the promise resolves
    with a response or rejects with an error. *)
Inductive TransportResult : Type :=
| Resolved (response : Axios.Response)
| Rejected (error : Axios.Error).

(** The transport seen from one run: the outcome of the call made by the
    attempt of each index. *)
Definition Transport : Type := nat -> TransportResult.

(** What a run does, in order: the call of an attempt on the instance, and
    [sleep(ms)]. *)
Inductive Event : Type :=
| EvRequest (attempt : nat) (instance : AxiosInstance) (request : AxiosRequest)
| EvSleep (ms : number).

(** How [makeRequest] settles: it returns [response.data], or it throws.
    The [throw lastError!] after the loop throws [undefined] when no attempt
    assigned [lastError]: [Thrown None]. *)
Inductive Outcome : Type :=
| Returned (payload : JsValue)
| Thrown (error : option BondMCPError).

(** [lastError instanceof C] for a leaf class [C] *)
Definition instanceOf (e : BondMCPError) (c : ErrorClass) : bool :=
  bool_decide (class e = c).

(** [lastError.retryAfter || this.config.retryDelay] *)
Definition retryAfterOr (e : BondMCPError) (fallback : Z) : number :=
  match retryAfter e with
  | Some n => if num_truthy n then n else Num fallback
  | None => Num fallback
  end.

Definition andThen (events : list Event)
    (rest : option (Outcome * list Event)) : option (Outcome * list Event) :=
  match rest with
  | Some (out, trace) => Some (out, (events ++ trace)%list)
  | None => None
  end.

Section Executor.

Variable client : BondMCPClient.
Variable transport : Transport.
Variable requestConfig : RequestConfig.

Definition axiosRequest : AxiosRequest :=
  {| reqMethod := method requestConfig;
     reqUrl := endpoint requestConfig;
     reqParams := params requestConfig;
     reqData := data requestConfig;
     reqHeaders := headers requestConfig |}.

(** The [for] loop of [makeRequest] from the head of an iteration, with the
    counter at [attempt].  [fuel] bounds the iterations still to run; the
    loop yields [None] only if it runs out of it. *)
Fixpoint attemptLoop (fuel : nat) (attempt : nat)
    (lastError : option BondMCPError) : option (Outcome * list Event) :=
  let cfg := config client in
  if Z.of_nat attempt <=? maxRetries cfg then
    match fuel with
    | O => None
    | S fuel' =>
        let call := EvRequest attempt (axiosInstance client) axiosRequest in
        match transport attempt with
        | Resolved response =>
            Some (Returned (Axios.data response), [call])
        | Rejected error =>
            let lastError := handleError error in
            if instanceOf lastError RateLimitError
               && (Z.of_nat attempt <? maxRetries cfg) then
              let retryAfter := retryAfterOr lastError (retryDelay cfg) in
              andThen [call; EvSleep retryAfter]
                (attemptLoop fuel' (S attempt) (Some lastError))
            else if (instanceOf lastError NetworkError
                     || instanceOf lastError TimeoutError)
                    && (Z.of_nat attempt <? maxRetries cfg) then
              andThen
                [call; EvSleep (Num (retryDelay cfg * 2 ^ Z.of_nat attempt))]
                (attemptLoop fuel' (S attempt) (Some lastError))
            else
              Some (Thrown (Some lastError), [call])
        end
    end
  else
    Some (Thrown lastError, []).

(** [makeRequest(requestConfig)]: the loop from attempt [0], with fuel for the
    [maxRetries + 1] iterations its guard admits. *)
Definition makeRequest : option (Outcome * list Event) :=
  attemptLoop (Z.to_nat (maxRetries (config client) + 1)) 0 None.

End Executor.

(** The number of calls of the transport in a trace *)
Definition isRequest (ev : Event) : bool :=
  match ev with
  | EvRequest _ _ _ => true
  | EvSleep _ => false
  end.

Definition transportCalls (trace : list Event) : nat :=
  length (List.filter isRequest trace).

(** The number of delays in a trace: each retry is preceded by one. *)
Definition retries (trace : list Event) : nat :=
  length (List.filter (fun ev => negb (isRequest ev)) trace).

(** The classes that the loop retries *)
Definition retryable (c : ErrorClass) : bool :=
  match c with
  | RateLimitError | NetworkError | TimeoutError => true
  | _ => false
  end.

(** The error codes that [handleError] takes for a failure of the transport
    itself, before it looks for a response. *)
Definition transportCode (error : Axios.Error) : bool :=
  codeIs error "ECONNABORTED" || codeIs error "ETIMEDOUT"
  || codeIs error "ECONNREFUSED" || codeIs error "ENOTFOUND".

(** An HTTP response failure: axios rejects with the response attached, and
    the code of the error is none of the transport codes (axios sets
    [ERR_BAD_REQUEST], [ERR_BAD_RESPONSE] or no code for a response whose
    status fails validation). *)
Definition httpFailure (error : Axios.Error) (resp : Axios.Response) : Prop :=
  Axios.response error = Some resp /\ transportCode error = false.

(** The value that [handleError] hands to the error constructors as message:
    [data?.message || `HTTP ${status}`]. *)
Definition responseMessage (r : Axios.Response) : JsValue :=
  jsOr (optChainGet (Axios.data r) "message")
       (JStr ("HTTP " +:+ pretty (Axios.status r))).

(** Whether an object has an own property [k] *)
Fixpoint hasField (k : string) (fields : list (string * JsValue)) : bool :=
  match fields with
  | [] => false
  | (k', _) :: rest => String.eqb k k' || hasField k rest
  end.

(** Whether [ToString value] throws a [TypeError].  An object that came from
    JSON has no callable property of its own: with an own [toString] the
    conversion finds neither a callable [toString] nor a [valueOf] that
    yields a primitive, and throws; without one, [Object.prototype.toString]
    answers.  An array is joined, so it throws when the conversion of an
    element other than [null] and [undefined] does.  No other value
    throws. *)
Fixpoint toStringThrows (value : JsValue) : bool :=
  match value with
  | JObj fields => hasField "toString" fields
  | JArr items =>
      (fix anyThrows (l : list JsValue) : bool :=
         match l with
         | [] => false
         | x :: rest =>
             match x with
             | JUndefined | JNull => false
             | _ => toStringThrows x
             end || anyThrows rest
         end) items
  | _ => false
  end.

(** Whether a call of [handleError] throws instead of returning: the only
    operation of its body that can is the conversion of the message in the
    error constructor, and the messages of the branches without response
    are strings. *)
Definition handleErrorThrows (error : Axios.Error) : bool :=
  if transportCode error then false
  else
    match Axios.response error with
    | None => false
    | Some resp => toStringThrows (responseMessage resp)
    end.

(** A call of [handleError] with its exception: [None] is the [TypeError]
    of the conversion, and otherwise the error is built. *)
Definition handleErrorResult (error : Axios.Error) : option BondMCPError :=
  if handleErrorThrows error then None else Some (handleError error).

(** The headers that axios sends for a request of an instance.  Axios is a
    dependency, not code of this repository; this is its order of
    precedence: the headers of the request, then the headers handed to
    [axios.create], then the common default headers.  (The defaults per
    HTTP method, which lie between the last two, hold no [Authorization].) *)
Definition sentHeaders (inst : AxiosInstance) (rq : AxiosRequest)
    : gmap string string :=
  match reqHeaders rq with
  | Some h => h
  | None => ∅
  end ∪ instanceHeaders inst ∪ commonHeaders inst.

(** Fixture: a 404 whose body holds a message that is an object with a
    [toString] property of its own *)
Definition shadowedMessage : Axios.Response :=
  Axios.mkResponse 404
    (JObj [("message", JObj [("toString", JNull)])]) ∅.

(** Fixtures: an error of axios that carries the response [r] and no code,
    and a client built from the default configuration. *)
Definition responseError (r : Axios.Response) : Axios.Error :=
  Axios.mkError None "Request failed" (Some r).

Definition noHeaders : gmap string string := ∅.

Definition defaultClient : BondMCPClient :=
  constructor noHeaders ClientConfig.empty.

Definition someRequest : RequestConfig :=
  mkRequestConfig GET "/patients/abc/summary" None None None.

(** Fixture transports: one that refuses every connection, one that answers
    every call with 429 and [Retry-After: 2], one that answers every call
    with 404, and one that refuses the first connection and then answers. *)
Definition refused : Axios.Error :=
  Axios.mkError (Some "ECONNREFUSED") "connect ECONNREFUSED" None.

Definition tooManyRequests : Axios.Response :=
  Axios.mkResponse 429 (JObj [("message", JStr "slow down")])
    {["retry-after" := "2"]}.

Definition notFound : Axios.Response :=
  Axios.mkResponse 404 (JObj [("message", JStr "not found")]) noHeaders.

Definition serviceUnavailable : Axios.Response :=
  Axios.mkResponse 503 (JStr "unavailable") noHeaders.

Definition retryAtDate : Axios.Response :=
  Axios.mkResponse 429 JUndefined
    {["retry-after" := "Wed, 21 Oct 2015 07:28:00 GMT"]}.


Definition falsyConfig : ClientConfig.t :=
  ClientConfig.mk (Some "") (Some "") (Some (Num 0)) (Some (Num 0))
    (Some (Num 0)) (Some "").

Definition alwaysRefused : Transport := fun _ => Rejected refused.

Definition alwaysRateLimited : Transport :=
  fun _ => Rejected (responseError tooManyRequests).

Definition alwaysNotFound : Transport :=
  fun _ => Rejected (responseError notFound).

Definition refusedOnce : Transport :=
  fun n =>
    match n with
    | O => Rejected refused
    | S _ => Resolved (Axios.mkResponse 200 (JStr "ok") noHeaders)
    end.

(** ** Beyond the executor: traces, services and the generation scripts *)

(** The arguments of the calls of [sleep] in a trace, in order *)
Fixpoint delays (trace : list Event) : list number :=
  match trace with
  | [] => []
  | EvSleep ms :: rest => ms :: delays rest
  | EvRequest _ _ _ :: rest => delays rest
  end.

(** The sum of integer delays; [None] when one of them is [NaN]. *)
Fixpoint totalDelay (ds : list number) : option Z :=
  match ds with
  | [] => Some 0
  | Num z :: rest =>
      match totalDelay rest with
      | Some t => Some (z + t)
      | None => None
      end
  | NaN :: _ => None
  end.

(** Strings of white space alone *)
Fixpoint allWhiteSpace (s : string) : bool :=
  match s with
  | EmptyString => true
  | String a rest => isWhiteSpace a && allWhiteSpace rest
  end.

(** A string at which a decimal numeral ends: the empty string, or one that
    starts with a character that is no decimal digit. *)
Definition endsNumeral (tail : string) : Prop :=
  match tail with
  | EmptyString => True
  | String c _ => radixDigit 10 c = None
  end.

(** A string that does not start with [x] or [X] *)
Definition noHexMark (tail : string) : Prop :=
  match tail with
  | EmptyString => True
  | String c _ => c <> "x"%char /\ c <> "X"%char
  end.

(** The instance of every call in a trace replaced by [inst] *)
Definition throughInstance (inst : AxiosInstance) (ev : Event) : Event :=
  match ev with
  | EvRequest n _ rq => EvRequest n inst rq
  | EvSleep ms => EvSleep ms
  end.

(** [x.k] on a value that the executor returned: a [TypeError] ([None]) on
    [undefined] and [null], the own property of an object, and [undefined]
    on any other value for a key that no built-in prototype defines. *)
Definition getProperty (v : JsValue) (k : string) : option JsValue :=
  match v with
  | JUndefined | JNull => None
  | JObj fields => Some (lookupField k fields)
  | _ => Some JUndefined
  end.

(** How a service method settles: as [makeRequest] does, or with the
    [TypeError] of a property read on [null] or [undefined]. *)
Inductive ServiceOutcome : Type :=
| Settled (out : Outcome)
| TypeErrorThrown.

(** The request of [ResearchService.searchPapers(query, limit = 20)] *)
Definition searchPapersRequest (query : string) (limit : option number)
    : RequestConfig :=
  let limit := match limit with Some n => n | None => Num 20 end in
  {| method := GET;
     endpoint := "/research/papers";
     params := Some (JObj [("q", JStr query); ("limit", JNum limit)]);
     data := None;
     headers := None |}.

(** [ResearchService.searchPapers]: [response.papers] of what the executor
    returns *)
Definition searchPapers (client : BondMCPClient) (transport : Transport)
    (query : string) (limit : option number)
    : option (ServiceOutcome * list Event) :=
  match makeRequest client transport (searchPapersRequest query limit) with
  | Some (Returned response, trace) =>
      match getProperty response "papers" with
      | Some papers => Some (Settled (Returned papers), trace)
      | None => Some (TypeErrorThrown, trace)
      end
  | Some (Thrown e, trace) => Some (Settled (Thrown e), trace)
  | None => None
  end.

(** The request of [ResearchService.saveResearch(paperId, notes?)]: the
    notes are added to the data only when they are truthy. *)
Definition saveResearchRequest (paperId : string) (notes : option string)
    : RequestConfig :=
  let data := [("paper_id", JStr paperId)] in
  let data :=
    match notes with
    | Some s => if str_truthy s then (data ++ [("notes", JStr s)])%list
                else data
    | None => data
    end in
  {| method := POST;
     endpoint := "/research/save";
     params := None;
     data := Some (JObj data);
     headers := None |}.

(** [ResearchService.saveResearch] *)
Definition saveResearch (client : BondMCPClient) (transport : Transport)
    (paperId : string) (notes : option string)
    : option (Outcome * list Event) :=
  makeRequest client transport (saveResearchRequest paperId notes).

(** A transport that answers every call with 200 and the body [null] *)
Definition nullBody : Transport :=
  fun _ => Resolved (Axios.mkResponse 200 JNull noHeaders).

(** [getTypeScriptType(value)] of the script that generates the SDK *)
Fixpoint getTypeScriptType (value : JsValue) : string :=
  match value with
  | JStr _ => "string"
  | JNum _ => "number"
  | JBool _ => "boolean"
  | JArr items =>
      match items with
      | first :: _ => getTypeScriptType first +:+ "[]"
      | [] => "any[]"
      end
  | JObj _ => "Record<string, any>"
  | JUndefined | JNull => "any"
  end.

(** [k] times the array suffix *)
Fixpoint arraySuffix (k : nat) : string :=
  match k with
  | O => ""
  | S k' => "[]" +:+ arraySuffix k'
  end.

(** The double quote and the backslash *)
Definition doubleQuote : ascii := ascii_of_nat 34.
Definition backslash : ascii := ascii_of_nat 92.

(** The lower-case hexadecimal digit of a number below 16 *)
Definition hexDigit (n : nat) : ascii :=
  match n with
  | 0 => "0" | 1 => "1" | 2 => "2" | 3 => "3" | 4 => "4" | 5 => "5"
  | 6 => "6" | 7 => "7" | 8 => "8" | 9 => "9" | 10 => "a" | 11 => "b"
  | 12 => "c" | 13 => "d" | 14 => "e" | _ => "f"
  end%nat%char.

(** [QuoteJSONString] on one character: the two-character escapes, a
    [\u00XX] escape for the other control characters, and the character
    itself otherwise. *)
Definition quoteChar (c : ascii) : string :=
  let n := nat_of_ascii c in
  if (n =? 8)%nat then "\b"
  else if (n =? 9)%nat then "\t"
  else if (n =? 10)%nat then "\n"
  else if (n =? 12)%nat then "\f"
  else if (n =? 13)%nat then "\r"
  else if (n =? 34)%nat then String backslash (String doubleQuote "")
  else if (n =? 92)%nat then String backslash (String backslash "")
  else if (n <? 32)%nat then
    "\u00" +:+ String (hexDigit (n / 16)) (String (hexDigit (n mod 16)) "")
  else String c "".

(** The quoted characters of a string, and the closing quote *)
Fixpoint quoteChars (s : string) : string :=
  match s with
  | EmptyString => String doubleQuote ""
  | String c rest => quoteChar c +:+ quoteChars rest
  end.

(** [QuoteJSONString]: the string between double quotes, escaped *)
Definition quoteJSON (s : string) : string :=
  String doubleQuote (quoteChars s).

(** [parts.join(sep)] *)
Fixpoint joinWith (sep : string) (parts : list string) : string :=
  match parts with
  | [] => ""
  | p :: rest =>
      match rest with
      | [] => p
      | _ :: _ => p +:+ sep +:+ joinWith sep rest
      end
  end.

(** [JSON.stringify(value, keys)] with an array of keys for replacer and no
    indentation: [None] is [undefined].  The keys are the property list of
    the serialization: of every object, at every depth, only the properties
    named in [keys] are written, in the order of [keys]; the elements of an
    array are all written, [undefined] as [null]. *)
Fixpoint stringify (keys : list string) (value : JsValue) : option string :=
  match value with
  | JUndefined => None
  | JNull => Some "null"
  | JBool true => Some "true"
  | JBool false => Some "false"
  | JNum NaN => Some "null"
  | JNum (Num z) => Some (pretty z)
  | JStr s => Some (quoteJSON s)
  | JArr items =>
      Some ("[" +:+
            joinWith ","
              ((fix elements (l : list JsValue) : list string :=
                  match l with
                  | [] => []
                  | x :: rest =>
                      match stringify keys x with
                      | Some s => s
                      | None => "null"
                      end :: elements rest
                  end) items)
            +:+ "]")
  | JObj fields =>
      Some ("{" +:+
            joinWith ","
              ((fix members (ks : list string) : list string :=
                  match ks with
                  | [] => []
                  | k :: ks' =>
                      match
                        (fix property (fs : list (string * JsValue))
                           : option string :=
                           match fs with
                           | [] => None
                           | (k', v) :: rest =>
                               if String.eqb k k' then stringify keys v
                               else property rest
                           end) fields
                      with
                      | Some s => (quoteJSON k +:+ ":" +:+ s) :: members ks'
                      | None => members ks'
                      end
                  end) keys)
            +:+ "}")
  end.

Section ApiHash.

(** [crypto.createHash('sha256').update(s).digest('hex')] *)
Variable sha256 : string -> string.

(** [calculateApiHash(config, spec)]: the keys of [combinedData], sorted,
    are [config] and [spec]. *)
Definition calculateApiHash (config spec : JsValue) : option string :=
  let combinedData := JObj [("config", config); ("spec", spec)] in
  match stringify ["config"; "spec"] combinedData with
  | Some jsonStr => Some (sha256 jsonStr)
  | None => None
  end.

End ApiHash.

(** An object with no property named [config] or [spec] *)
Definition withoutHashKeys (fields : list (string * JsValue)) : Prop :=
  lookupField "config" fields = JUndefined
  /\ lookupField "spec" fields = JUndefined.

(** Fixture: an API configuration of version [v] with one endpoint *)
Definition apiVersion (v : string) : list (string * JsValue) :=
  [("version", JStr v);
   ("endpoints", JArr [JObj [("id", JStr "health"); ("path", JStr "/health")]])].

(** Further fixtures: a client built with [maxRetries: -1], and a
    configuration that holds a key. *)
Definition negativeRetriesClient : BondMCPClient :=
  constructor noHeaders
    (ClientConfig.mk None None None (Some (Num (-1))) None None).

Definition keyedConfig : ClientConfig.t :=
  ClientConfig.mk (Some "old") None None None None None.


(** The calls of the eight services, one constructor for each method *)
Inductive ServiceCall : Type :=
| HealthGetStatus
| HealthGetLiveStatus
| HealthGetReadyStatus
| PatientGetSummary (patientId : string)
| PatientCreateSummary (patientData : JsValue)
| PrescriptionGetPrescription (prescriptionId : string)
| PrescriptionCreatePrescription (prescriptionData : JsValue)
| ProgramGetProgram (programId : string)
| ProgramEnrollPatient (programId patientId : string)
| ResearchSearchPapers (query : string) (limit : option number)
| ResearchSaveResearch (paperId : string) (notes : option string)
| WebhookHandleWebhook (eventData : JsValue)
| AuthLogin (username password : string)
| AuthRefreshToken (refreshToken : string)
| ApiKeyCreateKey (name : string) (permissions : list string)
| ApiKeyListKeys
| ApiKeyRevokeKey (keyId : string).

(** The name of the method of a call *)
Definition operationName (c : ServiceCall) : string :=
  match c with
  | HealthGetStatus => "health.getStatus"
  | HealthGetLiveStatus => "health.getLiveStatus"
  | HealthGetReadyStatus => "health.getReadyStatus"
  | PatientGetSummary _ => "patients.getSummary"
  | PatientCreateSummary _ => "patients.createSummary"
  | PrescriptionGetPrescription _ => "prescriptions.getPrescription"
  | PrescriptionCreatePrescription _ => "prescriptions.createPrescription"
  | ProgramGetProgram _ => "programs.getProgram"
  | ProgramEnrollPatient _ _ => "programs.enrollPatient"
  | ResearchSearchPapers _ _ => "research.searchPapers"
  | ResearchSaveResearch _ _ => "research.saveResearch"
  | WebhookHandleWebhook _ => "webhooks.handleWebhook"
  | AuthLogin _ _ => "auth.login"
  | AuthRefreshToken _ => "auth.refreshToken"
  | ApiKeyCreateKey _ _ => "apiKeys.createKey"
  | ApiKeyListKeys => "apiKeys.listKeys"
  | ApiKeyRevokeKey _ => "apiKeys.revokeKey"
  end.

(** A request without query parameters or headers *)
Definition plainRequest (m : Method) (path : string) (body : option JsValue)
    : RequestConfig :=
  {| method := m; endpoint := path; params := None; data := body;
     headers := None |}.

(** The request that each method hands to [makeRequest] *)
Definition requestOf (c : ServiceCall) : RequestConfig :=
  match c with
  | HealthGetStatus => plainRequest GET "/health" None
  | HealthGetLiveStatus => plainRequest GET "/health/live" None
  | HealthGetReadyStatus => plainRequest GET "/health/ready" None
  | PatientGetSummary patientId =>
      plainRequest GET ("/patients/" +:+ patientId +:+ "/summary") None
  | PatientCreateSummary patientData =>
      plainRequest POST "/patients/summary" (Some patientData)
  | PrescriptionGetPrescription prescriptionId =>
      plainRequest GET ("/prescriptions/" +:+ prescriptionId) None
  | PrescriptionCreatePrescription prescriptionData =>
      plainRequest POST "/prescriptions" (Some prescriptionData)
  | ProgramGetProgram programId =>
      plainRequest GET ("/programs/" +:+ programId) None
  | ProgramEnrollPatient programId patientId =>
      plainRequest POST ("/programs/" +:+ programId +:+ "/enroll")
        (Some (JObj [("patient_id", JStr patientId)]))
  | ResearchSearchPapers query limit => searchPapersRequest query limit
  | ResearchSaveResearch paperId notes => saveResearchRequest paperId notes
  | WebhookHandleWebhook eventData =>
      plainRequest POST "/webhooks" (Some eventData)
  | AuthLogin username password =>
      plainRequest POST "/auth/login"
        (Some (JObj [("username", JStr username);
                     ("password", JStr password)]))
  | AuthRefreshToken refreshToken =>
      plainRequest POST "/auth/refresh"
        (Some (JObj [("refresh_token", JStr refreshToken)]))
  | ApiKeyCreateKey name permissions =>
      plainRequest POST "/api-keys"
        (Some (JObj [("name", JStr name);
                     ("permissions", JArr (map JStr permissions))]))
  | ApiKeyListKeys => plainRequest GET "/api-keys" None
  | ApiKeyRevokeKey keyId =>
      plainRequest DELETE ("/api-keys/" +:+ keyId) None
  end.

(** Fixture: a configuration with every field given and truthy *)
Definition customConfig : ClientConfig.t :=
  ClientConfig.mk (Some "k") (Some "http://localhost:8080") (Some (Num 5000))
    (Some (Num 1)) (Some (Num 10)) (Some "tests/1.0").

(** * Properties *)

(** ** The error mapping *)

(** The error is a function of the response alone once axios reports an HTTP
    response failure. *)
Lemma handleError_response (e : Axios.Error) (r : Axios.Response) :
  httpFailure e r ->
  handleError e = handleError (Axios.mkError None "" (Some r)).
Proof.
  intros [Hresp Hcode]. unfold transportCode in Hcode.
  apply orb_false_iff in Hcode as [Hcode H4].
  apply orb_false_iff in Hcode as [Hcode H3].
  apply orb_false_iff in Hcode as [H1 H2].
  unfold handleError. rewrite H1, H2, H3, H4, Hresp. reflexivity.
Qed.

Lemma handleError_fields (e : Axios.Error) (r : Axios.Response) :
  httpFailure e r ->
  message (handleError e) = ToString (responseMessage r)
  /\ statusCode (handleError e) = Some (Axios.status r)
  /\ responseData (handleError e) = Axios.data r.
Proof.
  intros H. rewrite (handleError_response e r H).
  unfold handleError, responseMessage. cbn [codeIs Axios.code Axios.response orb].
  repeat case_match; cbn; auto.
Qed.

(** When the conversion of the message throws: never for a message field
    that is absent, falsy or a string. *)
Lemma handleErrorResult_response (e : Axios.Error) (r : Axios.Response) :
  httpFailure e r ->
  handleErrorResult e
  = if toStringThrows (responseMessage r) then None else Some (handleError e).
Proof.
  intros [Hresp Hcode]. unfold handleErrorResult, handleErrorThrows.
  rewrite Hcode, Hresp. reflexivity.
Qed.

Lemma responseMessage_converts (r : Axios.Response) :
  truthy (optChainGet (Axios.data r) "message") = false
  \/ (exists s, optChainGet (Axios.data r) "message" = JStr s) ->
  toStringThrows (responseMessage r) = false.
Proof.
  unfold responseMessage, jsOr. intros [Hf | [s Hs]].
  - rewrite Hf. reflexivity.
  - rewrite Hs. destruct (truthy (JStr s)); reflexivity.
Qed.

(** C1, as the code has it. For an HTTP response failure, [handleError]
    builds an error unless the conversion of the message throws, which it
    never does for a body whose [message] field is absent, falsy or a
    string. The error it builds is mapped by the status: 401 to
    [AuthenticationError], 403 to [AuthorizationError], 404 to
    [NotFoundError], 422 to [ValidationError], 429 to [RateLimitError], a
    status of 500 or more to [ServerError], and any other status to the base
    class [BondMCPError]; it carries the status and the body of the
    response. *)
Theorem handleError_classification (e : Axios.Error) (r : Axios.Response) :
  httpFailure e r ->
  (handleErrorResult e = None <-> toStringThrows (responseMessage r) = true)
  /\ (truthy (optChainGet (Axios.data r) "message") = false
      \/ (exists s, optChainGet (Axios.data r) "message" = JStr s) ->
      exists err, handleErrorResult e = Some err)
  /\ forall err, handleErrorResult e = Some err ->
       let s := Axios.status r in
       (s = 401 -> class err = AuthenticationError)
       /\ (s = 403 -> class err = AuthorizationError)
       /\ (s = 404 -> class err = NotFoundError)
       /\ (s = 422 -> class err = ValidationError)
       /\ (s = 429 -> class err = RateLimitError)
       /\ (500 <= s -> class err = ServerError)
       /\ (s <> 401 -> s <> 403 -> s <> 404 -> s <> 422 -> s <> 429 ->
           s < 500 -> class err = BondMCPErrorBase)
       /\ statusCode err = Some s
       /\ responseData err = Axios.data r.
Proof.
  intros H. rewrite (handleErrorResult_response e r H). split; [|split].
  - destruct (toStringThrows (responseMessage r)); split; intros H';
      try discriminate H'; reflexivity.
  - intros Hconv. rewrite (responseMessage_converts r Hconv). eauto.
  - intros err Herr s.
    assert (Heq : err = handleError e)
      by (destruct (toStringThrows (responseMessage r));
          [discriminate Herr | inversion Herr; reflexivity]).
    subst err.
    destruct (handleError_fields e r H) as (_ & Hs & Hd).
    assert (Hc : class (handleError e) =
                 if s =? 401 then AuthenticationError
                 else if s =? 403 then AuthorizationError
                 else if s =? 404 then NotFoundError
                 else if s =? 422 then ValidationError
                 else if s =? 429 then RateLimitError
                 else if s >=? 500 then ServerError
                 else BondMCPErrorBase).
    { subst s. rewrite (handleError_response e r H).
      unfold handleError. cbn [codeIs Axios.code Axios.response orb].
      repeat case_match; reflexivity. }
    change (statusCode (handleError e) = Some s) in Hs.
    clearbody s.
    repeat split; try assumption; intros; rewrite Hc;
      try (subst s; reflexivity);
      repeat (case_match; try reflexivity); lia.
Qed.

Lemma handleError_classification_witness :
  exists err,
    handleErrorResult (responseError serviceUnavailable) = Some err
    /\ class err = ServerError
    /\ statusCode err = Some 503
    /\ responseData err = JStr "unavailable".
Proof.
  assert (H : httpFailure (responseError serviceUnavailable)
                serviceUnavailable) by (split; reflexivity).
  destruct (handleError_classification (responseError serviceUnavailable)
              serviceUnavailable H) as (_ & Hbuilt & Hmap).
  destruct Hbuilt as [err Herr]; [left; reflexivity|].
  destruct (Hmap err Herr)
    as (_ & _ & _ & _ & _ & Hserver & _ & Hstatus & Hdata).
  exists err. split; [exact Herr|].
  split; [apply Hserver; simpl; lia|].
  split; [exact Hstatus | exact Hdata].
Defined.

(** C1 fails as stated: a 404 whose body holds, for message, an object with
    a [toString] property of its own is an HTTP response failure for which
    [handleError] builds no error: the constructor of [NotFoundError]
    throws a [TypeError]. *)
Lemma handleError_no_error_built :
  httpFailure (responseError shadowedMessage) shadowedMessage
  /\ Axios.status shadowedMessage = 404
  /\ handleErrorThrows (responseError shadowedMessage) = true
  /\ handleErrorResult (responseError shadowedMessage) = None.
Proof. repeat split. Qed.

(** ** [parseInt] on decimal notation *)

Lemma isDecimalDigit_cases (a : ascii) :
  isDecimalDigit a = true ->
  In a ["0"; "1"; "2"; "3"; "4"; "5"; "6"; "7"; "8"; "9"]%char.
Proof.
  destruct a as [[] [] [] [] [] [] [] []]; intros H;
    vm_compute in H; try discriminate H; cbn; auto 12.
Qed.

Lemma pretty_N_char_digit (x : N) :
  (x < 10)%N ->
  isDecimalDigit (pretty_N_char x) = true
  /\ radixDigit 10 (pretty_N_char x) = Some (Z.of_N x).
Proof.
  intros Hx.
  assert (H : (x = 0 \/ x = 1 \/ x = 2 \/ x = 3 \/ x = 4 \/ x = 5 \/ x = 6
              \/ x = 7 \/ x = 8 \/ x = 9)%N) by lia.
  repeat (destruct H as [-> | H]; [split; reflexivity|]).
  subst x. split; reflexivity.
Qed.

Lemma pretty_N_go_digits (x : N) (s : string) :
  decimalDigits s = true -> decimalDigits (pretty_N_go x s) = true.
Proof.
  revert s. induction (N.lt_wf_0 x) as [x _ IH]. intros s Hs.
  destruct (N.eq_dec x 0%N) as [-> | Hx].
  - rewrite pretty_N_go_0. exact Hs.
  - rewrite pretty_N_go_step by lia. apply IH.
    + apply N.div_lt; lia.
    + cbn [decimalDigits]. rewrite Hs.
      destruct (pretty_N_char_digit (x `mod` 10)%N) as [-> _]; [|reflexivity].
      apply N.mod_lt. lia.
Qed.

Lemma parseDigits_pretty_N_go (x : N) (s : string) :
  parseDigits 10 (pretty_N_go x s) None
  = parseDigits 10 s (if (x =? 0)%N then None else Some (Z.of_N x)).
Proof.
  revert s. induction (N.lt_wf_0 x) as [x _ IH]. intros s.
  destruct (N.eqb_spec x 0%N) as [-> | Hx].
  - rewrite pretty_N_go_0. reflexivity.
  - rewrite pretty_N_go_step by lia. rewrite IH by (apply N.div_lt; lia).
    cbn [parseDigits].
    destruct (pretty_N_char_digit (x `mod` 10)%N) as [_ ->];
      [apply N.mod_lt; lia|].
    f_equal. f_equal.
    pose proof (N.div_mod' x 10) as Hdm.
    pose proof (N.mod_lt x 10 ltac:(lia)) as Hlt.
    destruct (N.eqb_spec (x `div` 10)%N 0%N) as [Hq | Hq]; [rewrite Hq in Hdm|];
      lia.
Qed.

Lemma decimalDigits_head (a : ascii) (s : string) :
  isDecimalDigit a = true ->
  trimStart (String a s) = String a s
  /\ stripSign (String a s) = (1, String a s).
Proof.
  intros Ha. apply isDecimalDigit_cases in Ha. cbn [In] in Ha.
  repeat (destruct Ha as [<- | Ha]; [split; reflexivity|]). contradiction.
Qed.

Lemma decimalDigits_no_hex (s : string) :
  decimalDigits s = true -> stripHexPrefix s = (10, s).
Proof.
  destruct s as [|a [|b s]]; try reflexivity; cbn [decimalDigits];
    intros H; apply andb_prop in H as [Ha H].
  - apply isDecimalDigit_cases in Ha. cbn [In] in Ha.
    repeat (destruct Ha as [<- | Ha]; [reflexivity|]). contradiction.
  - apply andb_prop in H as [Hb _].
    apply isDecimalDigit_cases in Ha. apply isDecimalDigit_cases in Hb.
    cbn [In] in Ha, Hb.
    repeat (destruct Ha as [<- | Ha]; [|]); try contradiction;
      try reflexivity.
    repeat (destruct Hb as [<- | Hb]; [reflexivity|]). contradiction.
Qed.

(** [parseInt] reads back the decimal notation of a positive integer. *)
Lemma parseInt_digits_positive (p : positive) :
  decimalDigits (pretty (N.pos p)) = true
  /\ parseDigits 10 (pretty (N.pos p)) None = Some (Z.pos p)
  /\ parseInt (pretty (N.pos p)) = Num (Z.pos p).
Proof.
  assert (Hd : decimalDigits (pretty (N.pos p)) = true).
  { unfold pretty, pretty_N. rewrite decide_False by discriminate.
    apply pretty_N_go_digits. reflexivity. }
  assert (Hp : parseDigits 10 (pretty (N.pos p)) None = Some (Z.pos p)).
  { unfold pretty, pretty_N. rewrite decide_False by discriminate.
    rewrite parseDigits_pretty_N_go. reflexivity. }
  split; [exact Hd|]. split; [exact Hp|].
  unfold parseInt.
  destruct (pretty (N.pos p)) as [|a s] eqn:Hs; [discriminate Hp|].
  cbn [decimalDigits] in Hd. pose proof Hd as Hd'.
  apply andb_prop in Hd' as [Ha _].
  destruct (decimalDigits_head a s Ha) as [-> ->].
  rewrite (decimalDigits_no_hex (String a s)) by exact Hd.
  rewrite Hp. reflexivity.
Qed.

(** [parseInt] reads back the decimal notation of every integer. *)
Lemma parseInt_pretty (z : Z) : parseInt (pretty z) = Num z.
Proof.
  destruct z as [|p|p].
  - reflexivity.
  - apply (parseInt_digits_positive p).
  - destruct (parseInt_digits_positive p) as (Hd & Hp & _).
    change (pretty (Z.neg p)) with (String "-" (pretty (N.pos p))).
    unfold parseInt.
    change (trimStart (String "-" (pretty (N.pos p))))
      with (String "-" (pretty (N.pos p))).
    change (stripSign (String "-" (pretty (N.pos p))))
      with (-1, pretty (N.pos p)).
    cbv beta iota.
    rewrite (decimalDigits_no_hex _ Hd), Hp. reflexivity.
Qed.


(** The [retryAfter] that the 429 branch computes. *)
Lemma handleError_429 (e : Axios.Error) (r : Axios.Response) :
  httpFailure e r ->
  Axios.status r = 429 ->
  class (handleError e) = RateLimitError
  /\ retryAfter (handleError e) =
     Some (num_mul (parseInt (headerOrZero (Axios.headers r) "retry-after"))
                   (Num 1000)).
Proof.
  intros H Hs. rewrite (handleError_response e r H).
  unfold handleError. cbn [codeIs Axios.code Axios.response orb].
  rewrite Hs. split; reflexivity.
Qed.

(** X28. On a 429 response for which an error is built, when the
    [Retry-After] header is the decimal notation of an integer [n], small
    enough for [n * 1000] to be exact in a double, [retryAfter] is
    [n * 1000]; when the header is absent or empty, [retryAfter] is 0. *)
Theorem rateLimit_retryAfter (e : Axios.Error) (r : Axios.Response)
    (err : BondMCPError) :
  httpFailure e r ->
  Axios.status r = 429 ->
  handleErrorResult e = Some err ->
  (forall n : Z,
      Z.abs n * 1000 <= 2 ^ 53 ->
      Axios.headers r !! "retry-after" = Some (pretty n) ->
      retryAfter err = Some (Num (n * 1000)))
  /\ (Axios.headers r !! "retry-after" = None
      \/ Axios.headers r !! "retry-after" = Some "" ->
      retryAfter err = Some (Num 0)).
Proof.
  intros H Hs Herr.
  assert (Heq : err = handleError e).
  { rewrite (handleErrorResult_response e r H) in Herr.
    destruct (toStringThrows (responseMessage r));
      [discriminate Herr | inversion Herr; reflexivity]. }
  subst err. destruct (handleError_429 e r H Hs) as [_ Hra].
  rewrite Hra. unfold headerOrZero. split.
  - intros n _ Hh. rewrite Hh.
    assert (Hp := parseInt_pretty n).
    destruct (pretty n) as [|a s'] eqn:Hn; [discriminate Hp|].
    cbn [str_truthy]. rewrite Hp. reflexivity.
  - intros [Hh | Hh]; rewrite Hh; reflexivity.
Qed.

Lemma rateLimit_retryAfter_witness :
  retryAfter (handleError (responseError tooManyRequests)) = Some (Num 2000).
Proof.
  assert (H : httpFailure (responseError tooManyRequests) tooManyRequests)
    by (split; reflexivity).
  destruct (rateLimit_retryAfter (responseError tooManyRequests)
              tooManyRequests (handleError (responseError tooManyRequests))
              H eq_refl eq_refl) as (Hdec & _).
  apply (Hdec 2); [vm_compute; discriminate | reflexivity].
Defined.

(** C3. The code at the failing input: a 429 whose [Retry-After] header
    holds an HTTP date. The header is there, so the fallback to ['0'] is
    not taken; it has no leading integer, so [parseInt] gives [NaN], and
    the error that is built carries [NaN * 1000], which is [NaN] and
    not 0. *)
Lemma rateLimit_retryAfter_unparsable :
  httpFailure (responseError retryAtDate) retryAtDate
  /\ Axios.status retryAtDate = 429
  /\ Axios.headers retryAtDate !! "retry-after"
     = Some "Wed, 21 Oct 2015 07:28:00 GMT"
  /\ parseInt "Wed, 21 Oct 2015 07:28:00 GMT" = NaN
  /\ handleErrorResult (responseError retryAtDate)
     = Some (handleError (responseError retryAtDate))
  /\ class (handleError (responseError retryAtDate)) = RateLimitError
  /\ retryAfter (handleError (responseError retryAtDate)) = Some NaN
  /\ retryAfter (handleError (responseError retryAtDate)) <> Some (Num 0).
Proof.
  repeat split; try reflexivity.
  vm_compute. discriminate.
Qed.




(** ** The constructor and [setApiKey] *)

(** C10. A numeric field given as 0, or a string field given as the empty
    string, is replaced by the default of the field: 30000 for [timeout], 3
    for [maxRetries], 1000 for [retryDelay], the empty key for [apiKey], the
    production address for [baseUrl] and the library's name and version for
    [userAgent]. *)
Theorem constructor_falsy_defaults
    (libraryCommon : gmap string string) (given : ClientConfig.t) :
  let cfg := config (constructor libraryCommon given) in
  (ClientConfig.timeout given = Some (Num 0) -> timeout cfg = 30000)
  /\ (ClientConfig.maxRetries given = Some (Num 0) -> maxRetries cfg = 3)
  /\ (ClientConfig.retryDelay given = Some (Num 0) -> retryDelay cfg = 1000)
  /\ (ClientConfig.apiKey given = Some "" -> apiKey cfg = "")
  /\ (ClientConfig.baseUrl given = Some "" ->
      baseUrl cfg = "https://api.bondmcp.com")
  /\ (ClientConfig.userAgent given = Some "" ->
      userAgent cfg = "bondmcp-js/2.1.0").
Proof.
  cbn [constructor config timeout maxRetries retryDelay apiKey baseUrl
       userAgent].
  repeat split; intros ->; reflexivity.
Qed.

Lemma constructor_falsy_defaults_witness :
  config (constructor noHeaders falsyConfig) =
  mkRequiredConfig "" "https://api.bondmcp.com" 30000 3 1000
    "bondmcp-js/2.1.0".
Proof.
  destruct (constructor_falsy_defaults noHeaders falsyConfig)
    as (Ht & Hm & Hd & Hk & Hb & Hu).
  specialize (Ht eq_refl). specialize (Hm eq_refl). specialize (Hd eq_refl).
  specialize (Hk eq_refl). specialize (Hb eq_refl). specialize (Hu eq_refl).
  destruct (config (constructor noHeaders falsyConfig)); cbn in *.
  congruence.
Defined.

(** ** The retry loop *)

Section RetryLoop.

Variable client : BondMCPClient.
Variable transport : Transport.
Variable requestConfig : RequestConfig.

Let cfg := config client.
Let call (n : nat) : Event :=
  EvRequest n (axiosInstance client) (axiosRequest requestConfig).
Let loop := attemptLoop client transport requestConfig.

(** The loop is over when the counter has passed [maxRetries]. *)
Lemma attemptLoop_exit fuel a lastError :
  maxRetries cfg < Z.of_nat a ->
  loop fuel a lastError = Some (Thrown lastError, []).
Proof.
  intros Ha. unfold loop. destruct fuel; cbn [attemptLoop]; fold cfg;
    destruct (Z.leb_spec (Z.of_nat a) (maxRetries cfg)); (lia || reflexivity).
Qed.

(** A guard that holds needs fuel. *)
Lemma attemptLoop_no_fuel a lastError :
  Z.of_nat a <= maxRetries cfg ->
  loop 0%nat a lastError = None.
Proof.
  intros Ha. unfold loop. cbn [attemptLoop]. fold cfg.
  destruct (Z.leb_spec (Z.of_nat a) (maxRetries cfg)); (lia || reflexivity).
Qed.

(** An attempt whose call resolves returns the data of the response. *)
Lemma attemptLoop_resolved fuel a lastError response :
  Z.of_nat a <= maxRetries cfg ->
  transport a = Resolved response ->
  loop (S fuel) a lastError
  = Some (Returned (Axios.data response), [call a]).
Proof.
  intros Ha Ht. unfold loop. cbn [attemptLoop]. fold cfg.
  destruct (Z.leb_spec (Z.of_nat a) (maxRetries cfg)); [|lia].
  rewrite Ht. reflexivity.
Qed.

(** A rate-limited attempt with attempts left sleeps and goes on. *)
Lemma attemptLoop_rateLimit fuel a lastError e :
  Z.of_nat a < maxRetries cfg ->
  transport a = Rejected e ->
  class (handleError e) = RateLimitError ->
  loop (S fuel) a lastError
  = andThen [call a; EvSleep (retryAfterOr (handleError e) (retryDelay cfg))]
      (loop fuel (S a) (Some (handleError e))).
Proof.
  intros Ha Ht Hc. unfold loop. cbn [attemptLoop]. fold cfg.
  destruct (Z.leb_spec (Z.of_nat a) (maxRetries cfg)); [|lia].
  rewrite Ht. unfold instanceOf. rewrite Hc.
  destruct (Z.ltb_spec (Z.of_nat a) (maxRetries cfg)); [|lia].
  reflexivity.
Qed.

(** A network or timeout failure with attempts left backs off and goes on. *)
Lemma attemptLoop_backoff fuel a lastError e :
  Z.of_nat a < maxRetries cfg ->
  transport a = Rejected e ->
  class (handleError e) = NetworkError
  \/ class (handleError e) = TimeoutError ->
  loop (S fuel) a lastError
  = andThen [call a; EvSleep (Num (retryDelay cfg * 2 ^ Z.of_nat a))]
      (loop fuel (S a) (Some (handleError e))).
Proof.
  intros Ha Ht Hc. unfold loop. cbn [attemptLoop]. fold cfg.
  destruct (Z.leb_spec (Z.of_nat a) (maxRetries cfg)); [|lia].
  rewrite Ht. unfold instanceOf.
  destruct (Z.ltb_spec (Z.of_nat a) (maxRetries cfg)); [|lia].
  destruct Hc as [Hc | Hc]; rewrite Hc; reflexivity.
Qed.

(** Any other failure, and any failure of the last attempt, is thrown. *)
Lemma attemptLoop_throw fuel a lastError e :
  Z.of_nat a <= maxRetries cfg ->
  transport a = Rejected e ->
  retryable (class (handleError e)) = false
  \/ Z.of_nat a = maxRetries cfg ->
  loop (S fuel) a lastError = Some (Thrown (Some (handleError e)), [call a]).
Proof.
  intros Ha Ht Hc. unfold loop. cbn [attemptLoop]. fold cfg.
  destruct (Z.leb_spec (Z.of_nat a) (maxRetries cfg)); [|lia].
  rewrite Ht. unfold instanceOf.
  destruct Hc as [Hc | Hc].
  - destruct (class (handleError e)); try discriminate Hc; reflexivity.
  - destruct (Z.ltb_spec (Z.of_nat a) (maxRetries cfg)); [lia|].
    rewrite !andb_false_r. reflexivity.
Qed.

(** One iteration, by cases on what it does. *)
Lemma attemptLoop_step fuel a lastError :
  Z.of_nat a <= maxRetries cfg ->
  (exists response,
      transport a = Resolved response
      /\ loop (S fuel) a lastError
         = Some (Returned (Axios.data response), [call a]))
  \/ (exists e,
        transport a = Rejected e
        /\ loop (S fuel) a lastError
           = Some (Thrown (Some (handleError e)), [call a])
        /\ (retryable (class (handleError e)) = false
            \/ Z.of_nat a = maxRetries cfg))
  \/ (exists e ms,
        transport a = Rejected e
        /\ Z.of_nat a < maxRetries cfg
        /\ retryable (class (handleError e)) = true
        /\ (class (handleError e) = RateLimitError ->
            ms = retryAfterOr (handleError e) (retryDelay cfg))
        /\ (class (handleError e) <> RateLimitError ->
            ms = Num (retryDelay cfg * 2 ^ Z.of_nat a))
        /\ loop (S fuel) a lastError
           = andThen [call a; EvSleep ms]
               (loop fuel (S a) (Some (handleError e)))).
Proof.
  intros Ha. destruct (transport a) as [response | e] eqn:Ht.
  - left. exists response. split; [reflexivity|].
    apply attemptLoop_resolved; assumption.
  - right.
    destruct (retryable (class (handleError e))) eqn:Hr.
    + destruct (Z.eq_dec (Z.of_nat a) (maxRetries cfg)) as [Heq | Hne].
      * left. exists e. split; [reflexivity|]. split; [|right; exact Heq].
        apply attemptLoop_throw; auto.
      * right. assert (Hlt : Z.of_nat a < maxRetries cfg) by lia.
        destruct (decide (class (handleError e) = RateLimitError))
          as [Hc | Hc].
        -- exists e, (retryAfterOr (handleError e) (retryDelay cfg)).
           repeat split; auto; [contradiction|].
           apply attemptLoop_rateLimit; assumption.
        -- exists e, (Num (retryDelay cfg * 2 ^ Z.of_nat a)).
           repeat split; auto; [contradiction|].
           apply attemptLoop_backoff; try assumption.
           destruct (class (handleError e)); try discriminate Hr; auto;
             contradiction.
    + left. exists e. split; [reflexivity|]. split; [|left; exact Hr].
      apply attemptLoop_throw; auto.
Qed.

(** With fuel for the iterations that the guard admits, the loop settles. *)
Lemma attemptLoop_total fuel a lastError :
  maxRetries cfg + 1 <= Z.of_nat a + Z.of_nat fuel ->
  exists out trace, loop fuel a lastError = Some (out, trace).
Proof.
  revert a lastError. induction fuel as [|fuel IH]; intros a lastError Hf.
  - eexists _, _. apply attemptLoop_exit. lia.
  - destruct (Z.le_gt_cases (Z.of_nat a) (maxRetries cfg)) as [Ha | Ha].
    + destruct (attemptLoop_step fuel a lastError Ha)
        as [(r & _ & ->) | [(e & _ & -> & _) | (e & ms & _ & _ & _ & _ & _ & ->)]];
        eauto.
      destruct (IH (S a) (Some (handleError e))) as (out & trace & ->);
        [lia|]. cbn [andThen]. eauto.
    + eexists _, _. apply attemptLoop_exit. lia.
Qed.

(** A run that starts within the guard starts with the call of its attempt. *)
Lemma attemptLoop_head fuel a lastError out trace :
  Z.of_nat a <= maxRetries cfg ->
  loop fuel a lastError = Some (out, trace) ->
  exists rest, trace = call a :: rest.
Proof.
  intros Ha Hrun. destruct fuel as [|fuel].
  - rewrite attemptLoop_no_fuel in Hrun by assumption. discriminate.
  - destruct (attemptLoop_step fuel a lastError Ha)
      as [(r & _ & H) | [(e & _ & H & _) | (e & ms & _ & _ & _ & _ & _ & H)]];
      rewrite H in Hrun.
    + inversion Hrun. eauto.
    + inversion Hrun. eauto.
    + destruct (loop fuel (S a) (Some (handleError e))) as [[o t]|];
        cbn [andThen] in Hrun; inversion Hrun. cbn. eauto.
Qed.

(** Every call of a run is the call of an attempt from the counter on, goes
    through the instance of the client and carries the request unchanged. *)
Lemma attemptLoop_calls fuel a lastError out trace n inst rq :
  loop fuel a lastError = Some (out, trace) ->
  In (EvRequest n inst rq) trace ->
  (a <= n)%nat /\ EvRequest n inst rq = call n.
Proof.
  revert a lastError out trace.
  induction fuel as [|fuel IH]; intros a lastError out trace Hrun Hin;
    destruct (Z.le_gt_cases (Z.of_nat a) (maxRetries cfg)) as [Ha | Ha];
    try (rewrite attemptLoop_exit in Hrun by lia; inversion Hrun; subst;
         contradiction).
  - rewrite attemptLoop_no_fuel in Hrun by assumption. discriminate.
  - destruct (attemptLoop_step fuel a lastError Ha)
      as [(r & _ & H) | [(e & _ & H & _) | (e & ms & _ & _ & _ & _ & _ & H)]];
      rewrite H in Hrun.
    + inversion Hrun; subst. destruct Hin as [Heq | []].
      inversion Heq; subst. split; [lia | reflexivity].
    + inversion Hrun; subst. destruct Hin as [Heq | []].
      inversion Heq; subst. split; [lia | reflexivity].
    + destruct (loop fuel (S a) (Some (handleError e))) as [[o t]|] eqn:Hrec;
        cbn [andThen] in Hrun; inversion Hrun; subst.
      destruct Hin as [Heq | [Heq | Hin]].
      * inversion Heq; subst. split; [lia | reflexivity].
      * discriminate Heq.
      * destruct (IH _ _ _ _ Hrec Hin) as [Hle Hcall]. split; [lia | exact Hcall].
Qed.

(** After a failed attempt that is retried, the trace has the delay and then
    the call of the next attempt. *)
Lemma attemptLoop_delay fuel a lastError out trace n e :
  loop fuel a lastError = Some (out, trace) ->
  In (call n) trace ->
  transport n = Rejected e ->
  Z.of_nat n < maxRetries cfg ->
  retryable (class (handleError e)) = true ->
  exists pre post ms,
    trace = (pre ++ call n :: EvSleep ms :: call (S n) :: post)%list
    /\ (class (handleError e) = RateLimitError ->
        ms = retryAfterOr (handleError e) (retryDelay cfg))
    /\ (class (handleError e) <> RateLimitError ->
        ms = Num (retryDelay cfg * 2 ^ Z.of_nat n)).
Proof.
  intros Hrun Hin Ht Hn Hr. revert a lastError out trace Hrun Hin.
  induction fuel as [|fuel IH]; intros a lastError out trace Hrun Hin;
    destruct (Z.le_gt_cases (Z.of_nat a) (maxRetries cfg)) as [Ha | Ha];
    try (rewrite attemptLoop_exit in Hrun by lia; inversion Hrun; subst;
         contradiction).
  - rewrite attemptLoop_no_fuel in Hrun by assumption. discriminate.
  - destruct (attemptLoop_step fuel a lastError Ha)
      as [(r & Hta & H)
         | [(e' & Hta & H & Hstop)
           | (e' & ms & Hta & _ & _ & Hrl & Hbo & H)]];
      rewrite H in Hrun.
    + inversion Hrun; subst. destruct Hin as [Heq | []].
      inversion Heq; subst. congruence.
    + inversion Hrun; subst. destruct Hin as [Heq | []].
      inversion Heq; subst. rewrite Ht in Hta. inversion Hta; subst.
      destruct Hstop; [congruence | lia].
    + destruct (loop fuel (S a) (Some (handleError e'))) as [[o t]|] eqn:Hrec;
        cbn [andThen] in Hrun; inversion Hrun; subst.
      destruct Hin as [Heq | [Heq | Hin]].
      * assert (Hna : a = n) by (inversion Heq; reflexivity). subst a.
        rewrite Ht in Hta. inversion Hta; subst e'.
        destruct (attemptLoop_head fuel (S n) _ _ _ ltac:(lia) Hrec)
          as [rest ->].
        exists [], rest, ms. repeat split; assumption.
      * discriminate Heq.
      * destruct (IH _ _ _ _ Hrec Hin) as (pre & post & ms' & -> & Hms).
        exists (call a :: EvSleep ms :: pre), post, ms'.
        split; [reflexivity | exact Hms].
Qed.


(** The error that a run throws is the image by [handleError] of the failure
    of one of its calls, unless no attempt was made. *)
Lemma attemptLoop_thrown fuel a lastError err trace :
  loop fuel a lastError = Some (Thrown (Some err), trace) ->
  (lastError = Some err /\ trace = [])
  \/ (exists n e, In (call n) trace
                  /\ transport n = Rejected e /\ err = handleError e).
Proof.
  revert a lastError trace.
  induction fuel as [|fuel IH]; intros a lastError trace Hrun;
    destruct (Z.le_gt_cases (Z.of_nat a) (maxRetries cfg)) as [Ha | Ha];
    try (rewrite attemptLoop_exit in Hrun by lia; inversion Hrun; subst;
         left; split; reflexivity).
  - rewrite attemptLoop_no_fuel in Hrun by assumption. discriminate.
  - right.
    destruct (attemptLoop_step fuel a lastError Ha)
      as [(r & Hta & H)
         | [(e & Hta & H & _) | (e & ms & Hta & _ & _ & _ & _ & H)]];
      rewrite H in Hrun.
    + discriminate Hrun.
    + inversion Hrun; subst. exists a, e. split; [left; reflexivity | auto].
    + destruct (loop fuel (S a) (Some (handleError e))) as [[o t]|] eqn:Hrec;
        cbn [andThen] in Hrun; inversion Hrun; subst.
      destruct (IH _ _ _ Hrec) as [[Hle ->] | (n & e' & Hin & Hn)].
      * inversion Hle; subst. exists a, e. split; [left; reflexivity | auto].
      * exists n, e'. split; [right; right; exact Hin | exact Hn].
Qed.

End RetryLoop.

(** Two transports that answer the attempts alike give the same run. *)
Lemma attemptLoop_ext client (tr1 tr2 : Transport) rq fuel a lastError :
  (forall n, (a <= n)%nat -> Z.of_nat n <= maxRetries (config client) ->
             tr1 n = tr2 n) ->
  attemptLoop client tr1 rq fuel a lastError
  = attemptLoop client tr2 rq fuel a lastError.
Proof.
  revert a lastError. induction fuel as [|fuel IH]; intros a lastError Hagree.
  - reflexivity.
  - cbn [attemptLoop].
    destruct (Z.leb_spec (Z.of_nat a) (maxRetries (config client)));
      [|reflexivity].
    rewrite (Hagree a) by lia.
    destruct (tr2 a) as [r | e]; [reflexivity|].
    rewrite (IH (S a) (Some (handleError e)))
      by (intros n Hn1 Hn2; apply Hagree; lia).
    reflexivity.
Qed.

Lemma retryable_spec (c : ErrorClass) :
  retryable c = true
  <-> c = RateLimitError \/ c = NetworkError \/ c = TimeoutError.
Proof.
  split.
  - destruct c; intros H; try discriminate H; auto.
  - intros [-> | [-> | ->]]; reflexivity.
Qed.

(** [makeRequest] settles, whatever the transport does. *)
Lemma makeRequest_total client transport request :
  exists out trace, makeRequest client transport request = Some (out, trace).
Proof. apply attemptLoop_total. lia. Qed.





(** C4. A run settles, and for every attempt [n] of the run whose call fails
    with a [NetworkError] or a [TimeoutError] while [n < maxRetries], the
    trace has, right after the call of attempt [n], a sleep of
    [retryDelay * 2 ^ n] and then the call of attempt [n + 1]. *)
Theorem makeRequest_backoff client (transport : Transport) request :
  exists out trace,
    makeRequest client transport request = Some (out, trace)
    /\ forall n inst rq e,
         In (EvRequest n inst rq) trace ->
         transport n = Rejected e ->
         class (handleError e) = NetworkError
         \/ class (handleError e) = TimeoutError ->
         Z.of_nat n < maxRetries (config client) ->
         exists pre post,
           trace =
           (pre ++ EvRequest n inst rq
                :: EvSleep (Num (retryDelay (config client) * 2 ^ Z.of_nat n))
                :: EvRequest (S n) inst rq :: post)%list.
Proof.
  destruct (makeRequest_total client transport request) as (out & trace & Hrun).
  exists out, trace. split; [exact Hrun|].
  intros n inst rq e Hin Ht Hc Hn.
  destruct (attemptLoop_calls _ _ _ _ _ _ _ _ _ _ _ Hrun Hin) as [_ Hcall].
  rewrite Hcall in Hin.
  destruct (attemptLoop_delay _ _ _ _ _ _ _ _ _ _ Hrun Hin Ht Hn)
    as (pre & post & ms & -> & _ & Hms).
  { apply retryable_spec. tauto. }
  inversion Hcall; subst inst rq. exists pre, post.
  rewrite Hms; [reflexivity|]. destruct Hc as [Hc | Hc]; rewrite Hc; discriminate.
Qed.

Lemma makeRequest_backoff_witness :
  exists out pre post,
    makeRequest defaultClient alwaysRefused someRequest
    = Some (out,
            (pre ++ EvRequest 2 (axiosInstance defaultClient)
                      (axiosRequest someRequest)
                 :: EvSleep (Num 4000)
                 :: EvRequest 3 (axiosInstance defaultClient)
                      (axiosRequest someRequest) :: post)%list).
Proof.
  destruct (makeRequest_backoff defaultClient alwaysRefused someRequest)
    as (out & trace & Hrun & Hdelay).
  destruct (Hdelay 2%nat (axiosInstance defaultClient)
              (axiosRequest someRequest) refused)
    as (pre & post & Htrace).
  - assert (H : trace =
                snd (match makeRequest defaultClient alwaysRefused someRequest
                     with Some p => p | None => (out, []) end))
      by (rewrite Hrun; reflexivity).
    rewrite H. vm_compute. right; right; right; right; left. reflexivity.
  - reflexivity.
  - left. reflexivity.
  - vm_compute. reflexivity.
  - exists out, pre, post. rewrite Hrun, Htrace. reflexivity.
Defined.



(** C9. Two runs of the same request on the same client, against transports
    that answer every attempt alike, settle alike; when they throw, the two
    errors have the same class, message, status code and [retryAfter]; and
    the error thrown is [handleError] of the failure of one of the calls: a
    function of that failure alone. *)
Theorem classification_deterministic client (tr1 tr2 : Transport) request :
  (forall n, Z.of_nat n <= maxRetries (config client) -> tr1 n = tr2 n) ->
  makeRequest client tr1 request = makeRequest client tr2 request
  /\ (forall err1 err2 trace1 trace2,
        makeRequest client tr1 request = Some (Thrown (Some err1), trace1) ->
        makeRequest client tr2 request = Some (Thrown (Some err2), trace2) ->
        class err1 = class err2
        /\ message err1 = message err2
        /\ statusCode err1 = statusCode err2
        /\ retryAfter err1 = retryAfter err2)
  /\ (forall err trace,
        makeRequest client tr1 request = Some (Thrown (Some err), trace) ->
        exists n e, tr1 n = Rejected e /\ err = handleError e).
Proof.
  intros Hagree.
  assert (Heq : makeRequest client tr1 request
                = makeRequest client tr2 request).
  { apply attemptLoop_ext. intros n _ Hn. apply Hagree, Hn. }
  split; [exact Heq|]. split.
  - intros err1 err2 trace1 trace2 H1 H2. rewrite Heq, H2 in H1.
    inversion H1; subst. repeat split; reflexivity.
  - intros err trace Hrun.
    destruct (attemptLoop_thrown _ _ _ _ _ _ _ _ Hrun)
      as [[Hnone _] | (n & e & _ & Ht & Herr)]; [discriminate|].
    exists n, e. split; assumption.
Qed.

Lemma classification_deterministic_witness :
  makeRequest defaultClient alwaysNotFound someRequest
  = makeRequest defaultClient (fun n => alwaysNotFound (n + 0)%nat) someRequest.
Proof.
  apply (classification_deterministic defaultClient alwaysNotFound
           (fun n => alwaysNotFound (n + 0)%nat) someRequest).
  intros n _. reflexivity.
Defined.
(** X27. [setApiKey t] sets the key of the configuration to [t] and the
    [Authorization] entry of the instance's common default headers to
    [Bearer t]; the other five fields of the configuration, the other common
    headers and the other settings of the instance stay as they were; every
    call that a later [makeRequest] issues goes through the updated
    instance. *)
Theorem setApiKey_frame (client : BondMCPClient) (t : string) :
  let client' := setApiKey client t in
  apiKey (config client') = t
  /\ commonHeaders (axiosInstance client') !! "Authorization"
     = Some ("Bearer " +:+ t)
  /\ baseUrl (config client') = baseUrl (config client)
  /\ timeout (config client') = timeout (config client)
  /\ maxRetries (config client') = maxRetries (config client)
  /\ retryDelay (config client') = retryDelay (config client)
  /\ userAgent (config client') = userAgent (config client)
  /\ (forall k : string, k <> "Authorization" ->
        commonHeaders (axiosInstance client') !! k
        = commonHeaders (axiosInstance client) !! k)
  /\ baseURL (axiosInstance client') = baseURL (axiosInstance client)
  /\ instanceTimeout (axiosInstance client')
     = instanceTimeout (axiosInstance client)
  /\ instanceHeaders (axiosInstance client')
     = instanceHeaders (axiosInstance client)
  /\ (forall transport request out trace n inst rq,
        makeRequest client' transport request = Some (out, trace) ->
        In (EvRequest n inst rq) trace ->
        commonHeaders inst !! "Authorization" = Some ("Bearer " +:+ t)).
Proof.

  cbn [setApiKey config axiosInstance apiKey baseUrl timeout maxRetries
       retryDelay userAgent commonHeaders baseURL instanceTimeout
       instanceHeaders].
  repeat split.
  - apply lookup_insert_eq.
  - intros k Hk. apply lookup_insert_ne. congruence.
  - intros transport request out trace n inst rq Hrun Hin.
    destruct (attemptLoop_calls _ _ _ _ _ _ _ _ _ _ _ Hrun Hin) as [_ Hcall].
    inversion Hcall; subst inst. apply lookup_insert_eq.
Qed.

Lemma setApiKey_frame_witness :
  config (setApiKey defaultClient "secret")
  = mkRequiredConfig "secret" "https://api.bondmcp.com" 30000 3 1000
      "bondmcp-js/2.1.0"
  /\ commonHeaders (axiosInstance (setApiKey defaultClient "secret"))
     !! "Accept"
     = commonHeaders (axiosInstance defaultClient) !! "Accept"
  /\ commonHeaders (axiosInstance (setApiKey defaultClient "secret"))
     !! "Authorization" = Some "Bearer secret".
Proof.
  destruct (setApiKey_frame defaultClient "secret")
    as (Hk & _ & Hb & Ht & Hm & Hd & Hu & Hcommon & _ & _ & _ & Hlater).
  split; [|split].
  - destruct (config (setApiKey defaultClient "secret")); cbn in *.
    congruence.
  - apply Hcommon. discriminate.
  - apply (Hlater alwaysNotFound someRequest
             (Thrown (Some (handleError (responseError notFound))))
             [EvRequest 0 (axiosInstance (setApiKey defaultClient "secret"))
                (axiosRequest someRequest)]
             0%nat _ (axiosRequest someRequest)).
    + reflexivity.
    + left. reflexivity.
Defined.

(** C8. The code at the failing input: a client built with a key, then
    [setApiKey]. The constructor hands [Authorization] to [axios.create],
    [setApiKey] writes the common default header only, and the former has
    precedence: a later request without headers of its own is still sent
    with the key of the constructor. On a client built without a key the
    same request is sent with the new key. *)
Theorem setApiKey_stale_header
    (libraryCommon : gmap string string) (given : ClientConfig.t)
    (t : string) (rq : AxiosRequest) :
  reqHeaders rq = None ->
  let inst := axiosInstance (setApiKey (constructor libraryCommon given) t) in
  (forall k, ClientConfig.apiKey given = Some k -> k <> "" ->
     sentHeaders inst rq !! "Authorization" = Some ("Bearer " +:+ k))
  /\ (ClientConfig.apiKey given = None
      \/ ClientConfig.apiKey given = Some "" ->
      sentHeaders inst rq !! "Authorization" = Some ("Bearer " +:+ t)).
Proof.
  intros Hrq inst. unfold sentHeaders. rewrite Hrq.
  assert (Hempty : (∅ : gmap string string) !! "Authorization" = None)
    by apply lookup_empty.
  subst inst. cbn [setApiKey constructor axiosInstance instanceHeaders
                   commonHeaders config].
  unfold createHeaders. cbn [apiKey userAgent]. split.
  - intros k Hk Hne. rewrite Hk.
    destruct k as [|a k]; [contradiction|]. cbn [strOr str_truthy].
    apply lookup_union_Some_l. rewrite lookup_union_r by exact Hempty.
    apply lookup_insert_eq.
  - intros Hk.
    assert (Hkey : strOr (ClientConfig.apiKey given) "" = "")
      by (destruct Hk as [-> | ->]; reflexivity).
    rewrite Hkey. cbn [str_truthy].
    rewrite lookup_union_r.
    + apply lookup_insert_eq.
    + rewrite lookup_union_r by exact Hempty.
      repeat (rewrite lookup_insert_ne by discriminate).
      apply lookup_empty.
Qed.

Lemma setApiKey_stale_header_witness :
  sentHeaders
    (axiosInstance (setApiKey (constructor noHeaders keyedConfig) "new"))
    (axiosRequest someRequest) !! "Authorization"
  = Some "Bearer old".
Proof.
  destruct (setApiKey_stale_header noHeaders keyedConfig "new"
              (axiosRequest someRequest) eq_refl) as [Hold _].
  apply (Hold "old"); [reflexivity | discriminate].
Defined.

(** ** What the hypotheses above leave out *)

(** X8. [handleError] looks at the code of the error before it looks for a
    response: an error with a timeout code is a [TimeoutError] and one with a
    connection code a [NetworkError], response or not, and an error with
    neither code nor response is a [NetworkError]. *)
Lemma handleError_transport_failure (e : Axios.Error) :
  (codeIs e "ECONNABORTED" = true \/ codeIs e "ETIMEDOUT" = true ->
   handleError e
   = newError TimeoutError
       (JStr ("Request timed out: " +:+ Axios.message e)) None JUndefined)
  /\ (codeIs e "ECONNABORTED" = false -> codeIs e "ETIMEDOUT" = false ->
      codeIs e "ECONNREFUSED" = true \/ codeIs e "ENOTFOUND" = true
      \/ Axios.response e = None ->
      handleError e
      = newError NetworkError
          (JStr ("Network error: " +:+ Axios.message e)) None JUndefined).
Proof.
  unfold handleError. split.
  - intros [-> | ->]; rewrite ?orb_true_r; reflexivity.
  - intros -> -> [-> | [-> | ->]]; rewrite ?orb_true_r; cbn [orb];
      try reflexivity.
    destruct (codeIs e "ECONNREFUSED" || codeIs e "ENOTFOUND"); reflexivity.
Qed.

(** X7. With a negative [maxRetries] the guard of the loop fails at once: no call
    is made and [undefined] is thrown. *)
Lemma makeRequest_no_attempt client (transport : Transport) request :
  maxRetries (config client) < 0 ->
  makeRequest client transport request = Some (Thrown None, []).
Proof.
  intros Hneg. apply attemptLoop_exit. simpl. lia.
Qed.

(** X17. [setApiKey] writes the common default header only: on a client built
    with a key, the [Authorization] entry handed to [axios.create] still
    holds the key of the constructor.  Which of the two axios sends is
    decided in axios. *)
Lemma setApiKey_keeps_create_header libraryCommon given (k t : string) :
  ClientConfig.apiKey given = Some k ->
  k <> "" ->
  let inst := axiosInstance (setApiKey (constructor libraryCommon given) t) in
  instanceHeaders inst !! "Authorization" = Some ("Bearer " +:+ k)
  /\ commonHeaders inst !! "Authorization" = Some ("Bearer " +:+ t).
Proof.
  intros Hk Hne. cbn. rewrite Hk. unfold createHeaders. cbn [apiKey userAgent].
  destruct k as [|a k]; [contradiction|]. cbn [strOr str_truthy].
  split; apply lookup_insert_eq.
Qed.

(** ** The scenarios of the specification *)

(** GET [/patients/abc/summary] answered with 404 and a body that holds the
    message [not found]: a [NotFoundError] with that message and status,
    after one call. *)
Example scenario_not_found :
  makeRequest defaultClient alwaysNotFound someRequest
  = Some (Thrown (Some {| class := NotFoundError;
                          message := "not found";
                          statusCode := Some 404;
                          responseData := Axios.data notFound;
                          retryAfter := None |}),
          [EvRequest 0 (axiosInstance defaultClient)
             (axiosRequest someRequest)]).
Proof. reflexivity. Qed.

(** Every call answered with 429 and [Retry-After: 2]: four calls with a
    sleep of 2000 between them, then the [RateLimitError] with
    [retryAfter = 2000]. *)
Example scenario_rate_limited :
  let call n :=
    EvRequest n (axiosInstance defaultClient) (axiosRequest someRequest) in
  makeRequest defaultClient alwaysRateLimited someRequest
  = Some (Thrown (Some {| class := RateLimitError;
                          message := "slow down";
                          statusCode := Some 429;
                          responseData := Axios.data tooManyRequests;
                          retryAfter := Some (Num 2000) |}),
          [call 0%nat; EvSleep (Num 2000); call 1%nat; EvSleep (Num 2000);
           call 2%nat; EvSleep (Num 2000); call 3%nat]).
Proof. reflexivity. Qed.

(** Connection refused on the first attempt and an answer on the second: the
    payload, after one sleep of [retryDelay * 2 ^ 0]. *)
Example scenario_refused_once :
  makeRequest defaultClient refusedOnce someRequest
  = Some (Returned (JStr "ok"),
          [EvRequest 0 (axiosInstance defaultClient) (axiosRequest someRequest);
           EvSleep (Num 1000);
           EvRequest 1 (axiosInstance defaultClient)
             (axiosRequest someRequest)]).
Proof. reflexivity. Qed.

(** Every connection refused: sleeps of 1000, 2000 and 4000 between the four
    calls, then the [NetworkError]. *)
Example scenario_always_refused :
  let call n :=
    EvRequest n (axiosInstance defaultClient) (axiosRequest someRequest) in
  makeRequest defaultClient alwaysRefused someRequest
  = Some (Thrown (Some (newError NetworkError
                          (JStr "Network error: connect ECONNREFUSED")
                          None JUndefined)),
          [call 0%nat; EvSleep (Num 1000); call 1%nat; EvSleep (Num 2000);
           call 2%nat; EvSleep (Num 4000); call 3%nat]).
Proof. reflexivity. Qed.


(** ** The shape of every run *)

Section RunShape.

Variable client : BondMCPClient.
Variable transport : Transport.
Variable requestConfig : RequestConfig.

Let call (n : nat) : Event :=
  EvRequest n (axiosInstance client) (axiosRequest requestConfig).
Let loop := attemptLoop client transport requestConfig.

(** A run that enters the loop at attempt [a] ends at some attempt [k]: it
    calls the transport for [a], ..., [k] in this order, with one sleep
    after each call but the last; the attempts before [k] failed with an
    error of a retried class, and the call of [k] settles the run. *)
Lemma attemptLoop_shape fuel a lastError out trace :
  Z.of_nat a <= maxRetries (config client) ->
  loop fuel a lastError = Some (out, trace) ->
  exists k,
    (a <= k)%nat /\ Z.of_nat k <= maxRetries (config client)
    /\ List.filter isRequest trace = map call (seq a (S k - a))
    /\ retries trace = (k - a)%nat
    /\ last trace = Some (call k)
    /\ (forall n, (a <= n < k)%nat ->
          exists e, transport n = Rejected e
                    /\ retryable (class (handleError e)) = true)
    /\ match transport k with
       | Resolved response => out = Returned (Axios.data response)
       | Rejected e =>
           out = Thrown (Some (handleError e))
           /\ (retryable (class (handleError e)) = false
               \/ Z.of_nat k = maxRetries (config client))
       end.
Proof.
  revert a lastError out trace.
  induction fuel as [|fuel IH]; intros a lastError out trace Ha Hrun.
  - unfold loop in Hrun. rewrite attemptLoop_no_fuel in Hrun by assumption.
    discriminate.
  - destruct (attemptLoop_step client transport requestConfig fuel a
                lastError Ha)
      as [(r & Hta & H)
         | [(e & Hta & H & Hstop)
           | (e & ms & Hta & Hlt & Hr & _ & _ & H)]];
      unfold loop in Hrun; rewrite H in Hrun.
    + inversion Hrun; subst. exists a.
      replace (S a - a)%nat with 1%nat by lia. rewrite Hta.
      repeat split;
        first [ reflexivity | lia | assumption
              | unfold retries; cbn; lia | intros n Hn; lia ].
    + inversion Hrun; subst. exists a.
      replace (S a - a)%nat with 1%nat by lia. rewrite Hta.
      repeat split;
        first [ reflexivity | lia | assumption
              | unfold retries; cbn; lia | intros n Hn; lia ].
    + destruct (attemptLoop client transport requestConfig fuel (S a)
                  (Some (handleError e))) as [[o t]|] eqn:Hrec;
        cbn [andThen] in Hrun; inversion Hrun; subst.
      destruct (IH (S a) _ _ _ ltac:(lia) Hrec)
        as (k & Hk1 & Hk2 & Hcalls & Hsleeps & Hlast & Hbefore & Hout).
      exists k. split; [lia|]. split; [exact Hk2|].
      split; [|split; [|split; [|split]]].
      * cbn [app List.filter isRequest]. rewrite Hcalls.
        replace (S k - a)%nat with (S (S k - S a))%nat by lia.
        reflexivity.
      * unfold retries in *. cbn [app List.filter isRequest negb length].
        rewrite Hsleeps. lia.
      * cbn [app]. destruct t as [|ev t]; [discriminate Hlast|].
        exact Hlast.
      * intros n Hn. destruct (Nat.eq_dec n a) as [-> | Hne].
        -- exists e. split; assumption.
        -- apply Hbefore. lia.
      * exact Hout.
Qed.

End RunShape.

(** The shape of a run of [makeRequest]: no attempt at all when [maxRetries]
    is negative, and otherwise the attempts [0] to [k] for some
    [k <= maxRetries]. *)
Lemma makeRequest_shape client (transport : Transport) request :
  (maxRetries (config client) < 0
   /\ makeRequest client transport request = Some (Thrown None, []))
  \/ (0 <= maxRetries (config client)
      /\ exists out trace k,
           makeRequest client transport request = Some (out, trace)
           /\ Z.of_nat k <= maxRetries (config client)
           /\ List.filter isRequest trace
              = map (fun n => EvRequest n (axiosInstance client)
                                (axiosRequest request)) (seq 0 (S k))
           /\ transportCalls trace = S k
           /\ retries trace = k
           /\ last trace
              = Some (EvRequest k (axiosInstance client)
                        (axiosRequest request))
           /\ (forall n, (n < k)%nat ->
                 exists e, transport n = Rejected e
                           /\ retryable (class (handleError e)) = true)
           /\ match transport k with
              | Resolved response => out = Returned (Axios.data response)
              | Rejected e =>
                  out = Thrown (Some (handleError e))
                  /\ (retryable (class (handleError e)) = false
                      \/ Z.of_nat k = maxRetries (config client))
              end).
Proof.
  destruct (Z.lt_ge_cases (maxRetries (config client)) 0) as [Hneg | Hpos].
  - left. split; [exact Hneg|]. apply attemptLoop_exit. simpl. lia.
  - right. split; [exact Hpos|].
    destruct (makeRequest_total client transport request)
      as (out & trace & Hrun).
    destruct (attemptLoop_shape client transport request _ 0 None out trace
                ltac:(simpl; lia) Hrun)
      as (k & _ & Hk & Hcalls & Hsleeps & Hlast & Hbefore & Hout).
    exists out, trace, k. rewrite Nat.sub_0_r in Hcalls, Hsleeps.
    repeat split; try assumption.
    + unfold transportCalls. rewrite Hcalls, length_map, length_seq.
      reflexivity.
    + intros n Hn. apply Hbefore. lia.
Qed.

(** X1. For a configuration with an integer [maxRetries], every run
    settles; its calls are the attempts [0], [1], ... in this order, each
    through the instance of the client and with the request as given, and
    there are at most [maxRetries + 1] of them. *)
Theorem makeRequest_calls_numbered client (transport : Transport) request :
  exists out trace k,
    makeRequest client transport request = Some (out, trace)
    /\ List.filter isRequest trace
       = map (fun n => EvRequest n (axiosInstance client)
                         (axiosRequest request)) (seq 0 k)
    /\ transportCalls trace = k
    /\ Z.of_nat k <= Z.max 0 (maxRetries (config client) + 1).
Proof.
  destruct (makeRequest_shape client transport request)
    as [[Hneg Hrun]
       | (Hpos & out & trace & k & Hrun & Hk & Hcalls & Hn & _)].
  - exists (Thrown None), [], 0%nat. repeat split; [exact Hrun | lia].
  - exists out, trace, (S k). repeat split; try assumption. lia.
Qed.


(** X3. For a configuration with an integer [maxRetries] and a transport
    whose failures all let [handleError] build an error, the outcome of a
    run is settled by its last call: the data of the response when it
    resolves, the mapped error when it fails, and it fails for good only
    with an error of a class that is not retried or at attempt
    [maxRetries].  [undefined] is thrown only by a run without any call,
    which takes a negative [maxRetries]. *)
Theorem makeRequest_settled_by_last_call client (transport : Transport)
    request :
  (forall n e, transport n = Rejected e -> handleErrorThrows e = false) ->
  exists out trace,
    makeRequest client transport request = Some (out, trace)
    /\ match transportCalls trace with
       | O => maxRetries (config client) < 0 /\ out = Thrown None
       | S k =>
           0 <= maxRetries (config client)
           /\ match transport k with
              | Resolved response => out = Returned (Axios.data response)
              | Rejected e =>
                  handleErrorResult e = Some (handleError e)
                  /\ out = Thrown (Some (handleError e))
                  /\ (retryable (class (handleError e)) = false
                      \/ Z.of_nat k = maxRetries (config client))
              end
       end.
Proof.
  intros Hconv.
  destruct (makeRequest_shape client transport request)
    as [[Hneg Hrun]
       | (Hpos & out & trace & k & Hrun & Hk & Hcalls & Hn & _ & _ & _ & Hout)].
  - exists (Thrown None), []. split; [exact Hrun|]. cbn. split; [lia|reflexivity].
  - exists out, trace. split; [exact Hrun|]. rewrite Hn. split; [assumption|].
    destruct (transport k) as [response | e] eqn:Ht; [exact Hout|].
    split; [|exact Hout].
    unfold handleErrorResult. rewrite (Hconv k e Ht). reflexivity.
Qed.

Lemma makeRequest_settled_by_last_call_witness :
  exists out trace,
    makeRequest defaultClient refusedOnce someRequest = Some (out, trace)
    /\ transportCalls trace = 2%nat
    /\ out = Returned (JStr "ok").
Proof.
  destruct (makeRequest_settled_by_last_call defaultClient refusedOnce
              someRequest) as (out & trace & Hrun & Hlast).
  - intros [|n] e Ht; inversion Ht. reflexivity.
  - exists out, trace. split; [exact Hrun|].
    assert (Hc : transportCalls trace = 2%nat).
    { assert (H : trace =
                  snd (match makeRequest defaultClient refusedOnce someRequest
                       with Some p => p | None => (out, []) end))
        by (rewrite Hrun; reflexivity).
      rewrite H. reflexivity. }
    split; [exact Hc|]. rewrite Hc in Hlast. apply Hlast.
Defined.

(** X4. A run goes on to a further attempt only after a failure mapped to a
    [RateLimitError], a [NetworkError] or a [TimeoutError]: every call but
    the last one of a run failed that way. *)
Theorem makeRequest_retries_only_retryable client (transport : Transport)
    request :
  exists out trace,
    makeRequest client transport request = Some (out, trace)
    /\ forall n, (S n < transportCalls trace)%nat ->
         exists e, transport n = Rejected e
                   /\ (class (handleError e) = RateLimitError
                       \/ class (handleError e) = NetworkError
                       \/ class (handleError e) = TimeoutError).
Proof.
  destruct (makeRequest_shape client transport request)
    as [[Hneg Hrun]
       | (Hpos & out & trace & k & Hrun & Hk & Hcalls & Hn & _ & _ & Hb & _)].
  - exists (Thrown None), []. split; [exact Hrun|]. cbn. lia.
  - exists out, trace. split; [exact Hrun|]. rewrite Hn. intros n Hlt.
    destruct (Hb n ltac:(lia)) as (e & Ht & Hr).
    exists e. split; [exact Ht | apply retryable_spec; exact Hr].
Qed.

Lemma makeRequest_retries_only_retryable_witness :
  exists e, refusedOnce 0%nat = Rejected e
            /\ (class (handleError e) = RateLimitError
                \/ class (handleError e) = NetworkError
                \/ class (handleError e) = TimeoutError).
Proof.
  destruct (makeRequest_retries_only_retryable defaultClient refusedOnce
              someRequest) as (out & trace & Hrun & Hbefore).
  apply Hbefore.
  assert (H : trace =
              snd (match makeRequest defaultClient refusedOnce someRequest
                   with Some p => p | None => (out, []) end))
    by (rewrite Hrun; reflexivity).
  rewrite H. vm_compute. lia.
Defined.



Lemma totalDelay_backoff (d : Z) (k a : nat) :
  totalDelay (map (fun n => Num (d * 2 ^ Z.of_nat n)) (seq a k))
  = Some (d * (2 ^ Z.of_nat (a + k) - 2 ^ Z.of_nat a)).
Proof.
  revert a. induction k as [|k IH]; intros a.
  - cbn. f_equal. replace (a + 0)%nat with a by lia. lia.
  - cbn [seq map totalDelay]. rewrite IH. f_equal.
    replace (Z.of_nat (a + S k)) with (Z.of_nat (S a + k)) by lia.
    replace (Z.of_nat (S a)) with (Z.of_nat a + 1) by lia.
    rewrite (Z.pow_add_r 2 (Z.of_nat a) 1) by lia. lia.
Qed.

Lemma attemptLoop_backoff_schedule client (transport : Transport) request
    (k a : nat) lastError fuel out trace :
  Z.of_nat a + Z.of_nat k = maxRetries (config client) ->
  (forall n, (a <= n)%nat -> Z.of_nat n <= maxRetries (config client) ->
     exists e, transport n = Rejected e
               /\ (class (handleError e) = NetworkError
                   \/ class (handleError e) = TimeoutError)) ->
  attemptLoop client transport request fuel a lastError = Some (out, trace) ->
  delays trace
  = map (fun n => Num (retryDelay (config client) * 2 ^ Z.of_nat n)) (seq a k).
Proof.
  revert a lastError fuel out trace.
  induction k as [|k IH]; intros a lastError fuel out trace Hk Hall Hrun;
    (destruct fuel as [|fuel];
     [rewrite attemptLoop_no_fuel in Hrun by lia; discriminate|]);
    destruct (Hall a ltac:(lia) ltac:(lia)) as (e & Hta & Hc).
  - rewrite (attemptLoop_throw client transport request fuel a lastError e)
      in Hrun by (try assumption; lia || (right; lia)).
    inversion Hrun; subst. reflexivity.
  - rewrite (attemptLoop_backoff client transport request fuel a lastError e)
      in Hrun by (assumption || lia).
    destruct (attemptLoop client transport request fuel (S a)
                (Some (handleError e))) as [[o t]|] eqn:Hrec;
      cbn [andThen] in Hrun; inversion Hrun; subst.
    cbn [app delays seq map]. f_equal.
    eapply (IH (S a)); [lia | | exact Hrec].
    intros n Hn1 Hn2. apply Hall; lia.
Qed.

(** X6. The backoff schedule. When every attempt fails with a [NetworkError] or
    a [TimeoutError], the run sleeps [retryDelay], [2 * retryDelay], ...,
    [2 ^ (maxRetries - 1) * retryDelay] and nothing else; in all it sleeps
    [retryDelay * (2 ^ maxRetries - 1)]. *)
Theorem makeRequest_backoff_schedule client (transport : Transport) request :
  0 <= maxRetries (config client) ->
  (forall n, Z.of_nat n <= maxRetries (config client) ->
     exists e, transport n = Rejected e
               /\ (class (handleError e) = NetworkError
                   \/ class (handleError e) = TimeoutError)) ->
  exists out trace,
    makeRequest client transport request = Some (out, trace)
    /\ delays trace
       = map (fun n => Num (retryDelay (config client) * 2 ^ Z.of_nat n))
           (seq 0 (Z.to_nat (maxRetries (config client))))
    /\ totalDelay (delays trace)
       = Some (retryDelay (config client)
               * (2 ^ maxRetries (config client) - 1)).
Proof.
  intros Hmax Hall.
  destruct (makeRequest_total client transport request)
    as (out & trace & Hrun).
  exists out, trace. split; [exact Hrun|].
  assert (Hd : delays trace
               = map (fun n => Num (retryDelay (config client)
                                    * 2 ^ Z.of_nat n))
                   (seq 0 (Z.to_nat (maxRetries (config client))))).
  { apply (attemptLoop_backoff_schedule client transport request
             (Z.to_nat (maxRetries (config client))) 0 None
             (Z.to_nat (maxRetries (config client) + 1)) out trace);
      [lia | | exact Hrun].
    intros n _ Hn. apply Hall, Hn. }
  split; [exact Hd|]. rewrite Hd, totalDelay_backoff. f_equal.
  replace (Z.of_nat (0 + Z.to_nat (maxRetries (config client))))
    with (maxRetries (config client)) by lia.
  cbn. lia.
Qed.

Lemma makeRequest_backoff_schedule_witness :
  exists out trace,
    makeRequest defaultClient alwaysRefused someRequest = Some (out, trace)
    /\ delays trace = [Num 1000; Num 2000; Num 4000]
    /\ totalDelay (delays trace) = Some 7000.
Proof.
  apply (makeRequest_backoff_schedule defaultClient alwaysRefused someRequest).
  - vm_compute. discriminate.
  - intros n _. exists refused. split; [reflexivity | left; reflexivity].
Defined.

(** ** More on [handleError] *)

(** X9. What a caller can rely on in any error that [handleError] builds: it is
    never a [ConfigurationError]; it has a [retryAfter] exactly when it is a
    [RateLimitError]; it lacks a status code exactly when it is a
    [NetworkError] or a [TimeoutError], and then it has no response data. *)
Theorem handleError_invariants (e : Axios.Error) :
  class (handleError e) <> ConfigurationError
  /\ (class (handleError e) = RateLimitError
      <-> exists n, retryAfter (handleError e) = Some n)
  /\ (class (handleError e) = NetworkError
      \/ class (handleError e) = TimeoutError
      <-> statusCode (handleError e) = None)
  /\ (statusCode (handleError e) = None ->
      responseData (handleError e) = JUndefined).
Proof.
  unfold handleError.
  repeat case_match; cbn;
    (split; [discriminate|]);
    (split; [split; [try discriminate; eauto
                    | intros [n Hn]; try discriminate Hn; reflexivity]|]);
    (split; [split; [intros [H' | H']; try discriminate H'; reflexivity
                    | intros H'; try discriminate H'; auto]|]);
    intros H'; try discriminate H'; reflexivity.
Qed.

Lemma handleError_invariants_witness :
  (exists n, retryAfter (handleError (responseError tooManyRequests)) = Some n)
  /\ statusCode (handleError refused) = None
  /\ responseData (handleError refused) = JUndefined.
Proof.
  destruct (handleError_invariants (responseError tooManyRequests))
    as (_ & [Hrl _] & _).
  destruct (handleError_invariants refused) as (_ & _ & [Hnet _] & Hdata).
  split; [apply Hrl; reflexivity|].
  assert (Hs : statusCode (handleError refused) = None)
    by (apply Hnet; left; reflexivity).
  split; [exact Hs | exact (Hdata Hs)].
Defined.

(** X10. The class of an error tells the status of the response it came from. *)
Theorem handleError_class_tells_status (e : Axios.Error) :
  let err := handleError e in
  (class err = AuthenticationError -> statusCode err = Some 401)
  /\ (class err = AuthorizationError -> statusCode err = Some 403)
  /\ (class err = NotFoundError -> statusCode err = Some 404)
  /\ (class err = ValidationError -> statusCode err = Some 422)
  /\ (class err = RateLimitError -> statusCode err = Some 429)
  /\ (class err = ServerError ->
      exists s, statusCode err = Some s /\ 500 <= s)
  /\ (class err = BondMCPErrorBase ->
      exists s, statusCode err = Some s /\ s < 500
                /\ s <> 401 /\ s <> 403 /\ s <> 404 /\ s <> 422 /\ s <> 429).
Proof.
  unfold handleError.
  repeat case_match; cbn; repeat split; intros H'; try discriminate H';
    repeat match goal with
           | H : (_ =? _) = true |- _ => apply Z.eqb_eq in H
           | H : (_ =? _) = false |- _ => apply Z.eqb_neq in H
           | H : (_ >=? _) = true |- _ => apply Z.geb_le in H
           | H : (_ >=? _) = false |- _ => apply Z.geb_leb in H
           end;
    try (f_equal; assumption);
    try (eexists; split; [reflexivity|]; repeat split; lia).
Qed.

Lemma handleError_class_tells_status_witness :
  exists s, statusCode (handleError (responseError serviceUnavailable)) = Some s
            /\ 500 <= s.
Proof.
  destruct (handleError_class_tells_status (responseError serviceUnavailable))
    as (_ & _ & _ & _ & _ & Hserver & _).
  apply Hserver. reflexivity.
Defined.

(** X11. A status code on an error is the status of a response that axios
    attached to the failure, and the response data is the body of that
    response; an error of axios without response, or with one of the four
    transport codes, never yields a status code. *)
Theorem handleError_status_origin (e : Axios.Error) (s : Z) :
  statusCode (handleError e) = Some s ->
  transportCode e = false
  /\ exists r, Axios.response e = Some r
               /\ Axios.status r = s
               /\ responseData (handleError e) = Axios.data r.
Proof.
  unfold handleError, transportCode.
  destruct (codeIs e "ECONNABORTED"), (codeIs e "ETIMEDOUT"),
    (codeIs e "ECONNREFUSED"), (codeIs e "ENOTFOUND");
    cbn [orb]; try (cbn; discriminate).
  destruct (Axios.response e) as [r|]; [|cbn; discriminate].
  intros H. split; [reflexivity|]. exists r. split; [reflexivity|].
  repeat case_match; cbn in H |- *; inversion H; split; reflexivity.
Qed.

Lemma handleError_status_origin_witness :
  exists r, Axios.response (responseError notFound) = Some r
            /\ Axios.status r = 404
            /\ responseData (handleError (responseError notFound))
               = Axios.data r.
Proof.
  apply (handleError_status_origin (responseError notFound) 404).
  reflexivity.
Defined.

Lemma handleError_transport_failure_witness :
  handleError refused
  = newError NetworkError (JStr "Network error: connect ECONNREFUSED")
      None JUndefined.
Proof.
  destruct (handleError_transport_failure refused) as [_ Hnet].
  apply Hnet; [reflexivity | reflexivity | left; reflexivity].
Defined.

Lemma makeRequest_no_attempt_witness :
  makeRequest negativeRetriesClient alwaysRefused someRequest
  = Some (Thrown None, []).
Proof.
  apply makeRequest_no_attempt. vm_compute. reflexivity.
Defined.

Lemma setApiKey_keeps_create_header_witness :
  instanceHeaders
    (axiosInstance (setApiKey (constructor noHeaders keyedConfig) "new"))
  !! "Authorization" = Some "Bearer old"
  /\ commonHeaders
       (axiosInstance (setApiKey (constructor noHeaders keyedConfig) "new"))
     !! "Authorization" = Some "Bearer new".
Proof.
  apply (setApiKey_keeps_create_header noHeaders keyedConfig "old" "new").
  - reflexivity.
  - discriminate.
Defined.

(** ** [parseInt] reads the leading integer *)

Lemma append_empty (s : string) : "" +:+ s = s.
Proof. reflexivity. Qed.

Lemma append_String (a : ascii) (s t : string) :
  String a s +:+ t = String a (s +:+ t).
Proof. reflexivity. Qed.

Lemma trimStart_whitespace (ws s : string) :
  allWhiteSpace ws = true -> trimStart (ws +:+ s) = trimStart s.
Proof.
  induction ws as [|a ws IH]; intros H; [reflexivity|].
  cbn [allWhiteSpace] in H. apply andb_prop in H as [Ha Hws].
  change (trimStart (String a ws +:+ s))
    with (if isWhiteSpace a then trimStart (ws +:+ s)
          else String a (ws +:+ s)).
  rewrite Ha. apply IH, Hws.
Qed.

Lemma isDecimalDigit_radixDigit (a : ascii) :
  isDecimalDigit a = true -> exists d, radixDigit 10 a = Some d.
Proof.
  intros Ha. apply isDecimalDigit_cases in Ha. cbn [In] in Ha.
  repeat (destruct Ha as [<- | Ha]; [eexists; reflexivity|]). contradiction.
Qed.

Lemma parseDigits_tail (digits tail : string) (acc : option Z) :
  decimalDigits digits = true ->
  endsNumeral tail ->
  parseDigits 10 (digits +:+ tail) acc = parseDigits 10 digits acc.
Proof.
  revert acc. induction digits as [|a digits IH]; intros acc Hd Ht.
  - destruct tail as [|c t]; [reflexivity|]. unfold endsNumeral in Ht.
    rewrite append_empty. cbn [parseDigits]. rewrite Ht. reflexivity.
  - cbn [decimalDigits] in Hd. apply andb_prop in Hd as [Ha Hd].
    destruct (isDecimalDigit_radixDigit a Ha) as [d Hdig].
    rewrite append_String. cbn [parseDigits]. rewrite Hdig.
    apply IH; assumption.
Qed.

Lemma stripHexPrefix_zero_tail (tail : string) :
  noHexMark tail ->
  stripHexPrefix (String "0" tail) = (10, String "0" tail).
Proof.
  destruct tail as [|c t]; [reflexivity|]. intros [Hx HX].
  destruct c as [[] [] [] [] [] [] [] []]; try reflexivity;
    exfalso; (apply Hx; reflexivity) || (apply HX; reflexivity).
Qed.

Lemma stripHexPrefix_digits_tail (digits tail : string) (v : Z) :
  decimalDigits digits = true ->
  parseDigits 10 digits None = Some v ->
  (v = 0 -> noHexMark tail) ->
  stripHexPrefix (digits +:+ tail) = (10, digits +:+ tail).
Proof.
  intros Hd Hp Hx. destruct digits as [|a [|b rest]].
  - discriminate Hp.
  - cbn [decimalDigits] in Hd. apply andb_prop in Hd as [Ha _].
    apply isDecimalDigit_cases in Ha. cbn [In] in Ha.
    destruct Ha as [<- | Ha].
    + apply stripHexPrefix_zero_tail, Hx. vm_compute in Hp. congruence.
    + repeat (destruct Ha as [<- | Ha]; [reflexivity|]). contradiction.
  - cbn [decimalDigits] in Hd. apply andb_prop in Hd as [Ha Hd].
    apply andb_prop in Hd as [Hb _].
    apply isDecimalDigit_cases in Ha. apply isDecimalDigit_cases in Hb.
    cbn [In] in Ha, Hb. rewrite !append_String.
    repeat (destruct Ha as [<- | Ha]; [|]); try contradiction;
      try reflexivity.
    repeat (destruct Hb as [<- | Hb]; [reflexivity|]). contradiction.
Qed.

(** The two readings that [parseInt] shares: digits, and a minus sign and
    digits, after any white space and before anything that ends the
    numeral. *)
Lemma parseInt_digits_tail (ws digits tail : string) (v : Z) :
  allWhiteSpace ws = true ->
  decimalDigits digits = true ->
  parseDigits 10 digits None = Some v ->
  endsNumeral tail ->
  (v = 0 -> noHexMark tail) ->
  parseInt (ws +:+ digits +:+ tail) = Num v
  /\ parseInt (ws +:+ String "-" (digits +:+ tail)) = Num (- v).
Proof.
  intros Hws Hd Hp Ht Hx.
  assert (Hhex := stripHexPrefix_digits_tail digits tail v Hd Hp Hx).
  assert (Hval : parseDigits 10 (digits +:+ tail) None = Some v)
    by (rewrite parseDigits_tail; assumption).
  unfold parseInt. split; rewrite trimStart_whitespace by exact Hws.
  - destruct digits as [|a rest]; [discriminate Hp|].
    cbn [decimalDigits] in Hd. apply andb_prop in Hd as [Ha _].
    rewrite append_String in *.
    destruct (decimalDigits_head a (rest +:+ tail) Ha) as [-> ->].
    rewrite Hhex, Hval. destruct v; reflexivity.
  - change (trimStart (String "-" (digits +:+ tail)))
      with (String "-" (digits +:+ tail)).
    change (stripSign (String "-" (digits +:+ tail)))
      with (-1, digits +:+ tail).
    cbv beta iota. rewrite Hhex, Hval. destruct v; reflexivity.
Qed.

(** X12. [parseInt] reads the integer at the start of a string: white space
    before the decimal notation of [z] and whatever follows it are ignored,
    provided that what follows does not start with a digit, nor, after a
    lone [0], with the [x] of a hexadecimal prefix. *)
Theorem parseInt_leading_integer (ws tail : string) (z : Z) :
  Z.abs z <= 2 ^ 53 ->
  allWhiteSpace ws = true ->
  endsNumeral tail ->
  (z = 0 -> noHexMark tail) ->
  parseInt (ws +:+ pretty z +:+ tail) = Num z.
Proof.
  intros _ Hws Ht Hx. destruct z as [|p|p].
  - apply (parseInt_digits_tail ws "0" tail 0); auto.
  - destruct (parseInt_digits_positive p) as (Hd & Hp & _).
    apply (parseInt_digits_tail ws (pretty (N.pos p)) tail (Z.pos p)); auto;
      intros H0; discriminate H0.
  - destruct (parseInt_digits_positive p) as (Hd & Hp & _).
    change (pretty (Z.neg p)) with (String "-" (pretty (N.pos p))).
    rewrite append_String.
    apply (parseInt_digits_tail ws (pretty (N.pos p)) tail (Z.pos p)); auto;
      intros H0; discriminate H0.
Qed.

Lemma parseInt_leading_integer_witness :
  parseInt ("  " +:+ pretty 120 +:+ ", 3") = Num 120.
Proof.
  apply (parseInt_leading_integer "  " ", 3" 120).
  - vm_compute. discriminate.
  - reflexivity.
  - reflexivity.
  - intros H. discriminate H.
Defined.

(** ** More on the constructor and [setApiKey] *)

(** X13. The constructor keeps every value that is given and truthy: a number
    other than 0, a string that is not empty; the key is kept as given. *)
Theorem constructor_keeps_given
    (libraryCommon : gmap string string) (given : ClientConfig.t) :
  let cfg := config (constructor libraryCommon given) in
  (forall z, ClientConfig.timeout given = Some (Num z) -> z <> 0 ->
             timeout cfg = z)
  /\ (forall z, ClientConfig.maxRetries given = Some (Num z) -> z <> 0 ->
                maxRetries cfg = z)
  /\ (forall z, ClientConfig.retryDelay given = Some (Num z) -> z <> 0 ->
                retryDelay cfg = z)
  /\ (forall s, ClientConfig.apiKey given = Some s -> apiKey cfg = s)
  /\ (forall s, ClientConfig.baseUrl given = Some s -> s <> "" ->
                baseUrl cfg = s)
  /\ (forall s, ClientConfig.userAgent given = Some s -> s <> "" ->
                userAgent cfg = s).
Proof.
  cbn [constructor config timeout maxRetries retryDelay apiKey baseUrl
       userAgent].
  assert (Hnum : forall z d, z <> 0 -> numOr (Some (Num z)) d = z).
  { intros z d Hz. unfold numOr, num_truthy.
    destruct (Z.eqb_spec z 0); [contradiction | reflexivity]. }
  assert (Hstr : forall s d, s <> "" -> strOr (Some s) d = s).
  { intros [|a s] d Hs; [contradiction | reflexivity]. }
  repeat split; intros v ->; auto.
  destruct v; reflexivity.
Qed.

Lemma constructor_keeps_given_witness :
  config (constructor noHeaders customConfig)
  = mkRequiredConfig "k" "http://localhost:8080" 5000 1 10 "tests/1.0".
Proof.
  destruct (constructor_keeps_given noHeaders customConfig)
    as (Ht & Hm & Hd & Hk & Hb & Hu).
  specialize (Ht 5000 eq_refl ltac:(discriminate)).
  specialize (Hm 1 eq_refl ltac:(discriminate)).
  specialize (Hd 10 eq_refl ltac:(discriminate)).
  specialize (Hk "k" eq_refl).
  specialize (Hb "http://localhost:8080" eq_refl ltac:(discriminate)).
  specialize (Hu "tests/1.0" eq_refl ltac:(discriminate)).
  destruct (config (constructor noHeaders customConfig)); cbn in *.
  congruence.
Defined.

(** X14. Whatever it is given, the constructor yields a configuration whose
    timeout, retry count and retry delay are not 0 and whose address and
    user agent are not empty. *)
Theorem constructor_never_falsy
    (libraryCommon : gmap string string) (given : ClientConfig.t) :
  let cfg := config (constructor libraryCommon given) in
  timeout cfg <> 0 /\ maxRetries cfg <> 0 /\ retryDelay cfg <> 0
  /\ baseUrl cfg <> "" /\ userAgent cfg <> "".
Proof.
  cbn [constructor config timeout maxRetries retryDelay apiKey baseUrl
       userAgent].
  assert (Hnum : forall o d, d <> 0 -> numOr o d <> 0).
  { intros [[|z]|] d Hd; cbn; try exact Hd.
    destruct (Z.eqb_spec z 0); cbn; assumption. }
  assert (Hstr : forall o d, d <> "" -> strOr o d <> "").
  { intros [[|a s]|] d Hd; cbn; try exact Hd. discriminate. }
  repeat split; (apply Hnum; lia) || (apply Hstr; discriminate).
Qed.

(** X15. The settings that the constructor hands to [axios.create]: the address
    and the timeout of the configuration, JSON content negotiation, the
    user agent, and an [Authorization] header exactly when the key is not
    empty; no other header. *)
Theorem constructor_instance
    (libraryCommon : gmap string string) (given : ClientConfig.t) :
  let client := constructor libraryCommon given in
  let inst := axiosInstance client in
  baseURL inst = baseUrl (config client)
  /\ instanceTimeout inst = timeout (config client)
  /\ commonHeaders inst = libraryCommon
  /\ instanceHeaders inst !! "Content-Type" = Some "application/json"
  /\ instanceHeaders inst !! "Accept" = Some "application/json"
  /\ instanceHeaders inst !! "User-Agent" = Some (userAgent (config client))
  /\ instanceHeaders inst !! "Authorization"
     = (if str_truthy (apiKey (config client))
        then Some ("Bearer " +:+ apiKey (config client)) else None)
  /\ (forall k : string,
        k <> "Content-Type" -> k <> "Accept" -> k <> "User-Agent" ->
        k <> "Authorization" -> instanceHeaders inst !! k = None).
Proof.
  cbn [constructor axiosInstance config baseURL instanceTimeout
       commonHeaders instanceHeaders].
  repeat split; unfold createHeaders; cbn [apiKey userAgent];
    destruct (str_truthy (strOr (ClientConfig.apiKey given) ""));
    try (intros k H1 H2 H3 H4);
    repeat (rewrite lookup_insert_ne by congruence);
    try apply lookup_insert_eq; try apply lookup_empty.
Qed.

Lemma constructor_instance_witness :
  instanceHeaders (axiosInstance (constructor noHeaders customConfig))
  !! "X-Request-Id" = None.
Proof.
  destruct (constructor_instance noHeaders customConfig)
    as (_ & _ & _ & _ & _ & _ & _ & Hother).
  apply Hother; discriminate.
Defined.

Lemma constructor_never_zero_retries
    (libraryCommon : gmap string string) (given : ClientConfig.t) :
  maxRetries (config (constructor libraryCommon given)) <> 0.
Proof.
  cbn [constructor config maxRetries].
  destruct (ClientConfig.maxRetries given) as [[|z]|]; cbn; try discriminate.
  destruct (Z.eqb_spec z 0); cbn; [discriminate | assumption].
Qed.

(** X16. No integer [maxRetries] given to the constructor switches retries
    off, 0 least of all, which becomes 3: against a transport that refuses
    every connection, a client built from a configuration whose
    [maxRetries] is an integer, [NaN] or absent never stops after one
    call. *)
Theorem constructed_client_never_single_attempt
    (libraryCommon : gmap string string) (given : ClientConfig.t)
    (transport : Transport) (request : RequestConfig) :
  (forall n, exists e, transport n = Rejected e
                       /\ class (handleError e) = NetworkError) ->
  exists out trace,
    makeRequest (constructor libraryCommon given) transport request
    = Some (out, trace)
    /\ transportCalls trace <> 1%nat.
Proof.
  intros Hall.
  pose proof (constructor_never_zero_retries libraryCommon given) as Hnz.
  destruct (makeRequest_shape (constructor libraryCommon given) transport
              request)
    as [[Hneg Hrun]
       | (Hpos & out & trace & k & Hrun & Hk & _ & Hc & _ & _ & _ & Hout)].
  - exists (Thrown None), []. split; [exact Hrun | discriminate].
  - exists out, trace. split; [exact Hrun|]. rewrite Hc. intros Hone.
    assert (k = 0%nat) as -> by lia.
    destruct (Hall 0%nat) as (e & Ht & Hclass). rewrite Ht in Hout.
    destruct Hout as [_ [Hr | Hlast]].
    + rewrite Hclass in Hr. discriminate Hr.
    + apply Hnz. rewrite <- Hlast. reflexivity.
Qed.

Lemma constructed_client_never_single_attempt_witness :
  exists out trace,
    makeRequest (constructor noHeaders falsyConfig) alwaysRefused someRequest
    = Some (out, trace)
    /\ transportCalls trace <> 1%nat.
Proof.
  apply (constructed_client_never_single_attempt noHeaders falsyConfig
           alwaysRefused someRequest).
  intros n. exists refused. split; reflexivity.
Defined.

(** X18. The last key set is the one that counts: setting a key and then another
    leaves the client as setting the second alone does. *)
Theorem setApiKey_last_wins (client : BondMCPClient) (a b : string) :
  setApiKey (setApiKey client a) b = setApiKey client b.
Proof.
  unfold setApiKey. cbn. rewrite insert_insert_eq. reflexivity.
Qed.

Lemma attemptLoop_same_policy (c1 c2 : BondMCPClient) (transport : Transport)
    request fuel a lastError :
  maxRetries (config c1) = maxRetries (config c2) ->
  retryDelay (config c1) = retryDelay (config c2) ->
  attemptLoop c2 transport request fuel a lastError
  = match attemptLoop c1 transport request fuel a lastError with
    | Some (out, trace) =>
        Some (out, map (throughInstance (axiosInstance c2)) trace)
    | None => None
    end.
Proof.
  intros Hm Hd. revert a lastError.
  induction fuel as [|fuel IH]; intros a lastError; cbn [attemptLoop];
    rewrite <- Hm, <- ?Hd;
    destruct (Z.of_nat a <=? maxRetries (config c1)); try reflexivity.
  destruct (transport a) as [r | e]; [reflexivity|].
  rewrite !IH.
  destruct (instanceOf (handleError e) RateLimitError
            && (Z.of_nat a <? maxRetries (config c1))).
  - destruct (attemptLoop c1 transport request fuel (S a)
                (Some (handleError e))) as [[o t]|]; reflexivity.
  - destruct ((instanceOf (handleError e) NetworkError
               || instanceOf (handleError e) TimeoutError)
              && (Z.of_nat a <? maxRetries (config c1))); [|reflexivity].
    destruct (attemptLoop c1 transport request fuel (S a)
                (Some (handleError e))) as [[o t]|]; reflexivity.
Qed.

(** X19. [setApiKey] changes nothing in how a request is retried: against the
    same transport, the run after it has the same outcome, the same calls
    and the same sleeps; only the instance that the calls go through is the
    updated one. *)
Theorem setApiKey_same_run (client : BondMCPClient) (t : string)
    (transport : Transport) (request : RequestConfig) :
  makeRequest (setApiKey client t) transport request
  = match makeRequest client transport request with
    | Some (out, trace) =>
        Some (out,
              map (throughInstance (axiosInstance (setApiKey client t))) trace)
    | None => None
    end.
Proof.
  unfold makeRequest.
  rewrite (attemptLoop_same_policy client (setApiKey client t)) by reflexivity.
  reflexivity.
Qed.

(** ** Services *)

(** X20. [searchPapers] sends the limit it is given, 0 included, and 20 only when
    none is given; every call of its run, retries included, carries the
    query and that limit as parameters and no body. *)
Theorem searchPapers_params client (transport : Transport) (query : string)
    (limit : option number) :
  exists out trace,
    searchPapers client transport query limit = Some (out, trace)
    /\ forall n inst rq,
         In (EvRequest n inst rq) trace ->
         reqMethod rq = GET
         /\ reqUrl rq = "/research/papers"
         /\ reqData rq = None
         /\ reqParams rq
            = Some (JObj [("q", JStr query);
                          ("limit",
                           JNum (match limit with
                                 | Some l => l
                                 | None => Num 20
                                 end))]).
Proof.
  destruct (makeRequest_total client transport
              (searchPapersRequest query limit)) as (out & trace & Hrun).
  assert (Hcalls : forall n inst rq,
             In (EvRequest n inst rq) trace ->
             rq = axiosRequest (searchPapersRequest query limit)).
  { intros n inst rq Hin.
    destruct (attemptLoop_calls _ _ _ _ _ _ _ _ _ _ _ Hrun Hin) as [_ Heq].
    inversion Heq. reflexivity. }
  unfold searchPapers. rewrite Hrun.
  destruct out as [response | e];
    [destruct (getProperty response "papers")|];
    eexists _, trace; (split; [reflexivity|]);
    intros n inst rq Hin; rewrite (Hcalls n inst rq Hin);
    repeat split.
Qed.

Lemma searchPapers_params_witness :
  exists out trace,
    searchPapers defaultClient alwaysNotFound "flu" (Some (Num 0))
    = Some (out, trace)
    /\ reqParams (axiosRequest (searchPapersRequest "flu" (Some (Num 0))))
       = Some (JObj [("q", JStr "flu"); ("limit", JNum (Num 0))]).
Proof.
  destruct (searchPapers_params defaultClient alwaysNotFound "flu"
              (Some (Num 0))) as (out & trace & Hrun & Hparams).
  exists out, trace. split; [exact Hrun|].
  apply (Hparams 0%nat (axiosInstance defaultClient)).
  assert (H : trace =
              snd (match searchPapers defaultClient alwaysNotFound "flu"
                           (Some (Num 0))
                   with Some p => p | None => (out, []) end))
    by (rewrite Hrun; reflexivity).
  rewrite H. vm_compute. left. reflexivity.
Defined.

(** X21. What [searchPapers] makes of the first answer: when the first call
    resolves, it resolves with the [papers] field of the body, which is
    [undefined] for a body without that field or one that is no object; on
    a body that is [null] or absent the property read throws a [TypeError],
    which is not a [BondMCPError]. *)
Theorem searchPapers_first_answer client (transport : Transport)
    (query : string) (limit : option number) (response : Axios.Response) :
  0 <= maxRetries (config client) ->
  transport 0%nat = Resolved response ->
  exists trace,
    transportCalls trace = 1%nat
    /\ searchPapers client transport query limit
       = Some (match Axios.data response with
               | JUndefined | JNull => TypeErrorThrown
               | JObj fields =>
                   Settled (Returned (lookupField "papers" fields))
               | _ => Settled (Returned JUndefined)
               end, trace).
Proof.
  intros Hmax Ht.
  exists [EvRequest 0 (axiosInstance client)
            (axiosRequest (searchPapersRequest query limit))].
  split; [reflexivity|].
  unfold searchPapers, makeRequest.
  replace (Z.to_nat (maxRetries (config client) + 1))
    with (S (Z.to_nat (maxRetries (config client)))) by lia.
  rewrite (attemptLoop_resolved client transport _ _ 0 None response)
    by (assumption || (simpl; lia)).
  destruct (Axios.data response); reflexivity.
Qed.

Lemma searchPapers_first_answer_witness :
  exists trace,
    transportCalls trace = 1%nat
    /\ searchPapers defaultClient nullBody "flu" None
       = Some (TypeErrorThrown, trace).
Proof.
  apply (searchPapers_first_answer defaultClient nullBody "flu" None
           (Axios.mkResponse 200 JNull noHeaders)).
  - vm_compute. discriminate.
  - reflexivity.
Defined.

(** X22. [saveResearch] sends the notes only when they are not empty: with empty
    notes it runs exactly as without notes, and with others the data holds
    them beside the paper id. *)
Theorem saveResearch_notes client (transport : Transport) (paperId : string) :
  saveResearch client transport paperId (Some "")
  = saveResearch client transport paperId None
  /\ forall s, s <> "" ->
       data (saveResearchRequest paperId (Some s))
       = Some (JObj [("paper_id", JStr paperId); ("notes", JStr s)]).
Proof.
  split; [reflexivity|]. intros [|a s] Hs; [contradiction | reflexivity].
Qed.

Lemma saveResearch_notes_witness :
  data (saveResearchRequest "p1" (Some "read"))
  = Some (JObj [("paper_id", JStr "p1"); ("notes", JStr "read")]).
Proof.
  destruct (saveResearch_notes defaultClient alwaysNotFound "p1") as [_ H].
  apply H. discriminate.
Defined.

(** ** The generation scripts *)

Lemma append_assoc (a b c : string) : (a +:+ b) +:+ c = a +:+ (b +:+ c).
Proof.
  induction a as [|x a IH]; [reflexivity|].
  rewrite !append_String, IH. reflexivity.
Qed.

Lemma arraySuffix_snoc (k : nat) :
  arraySuffix k +:+ "[]" = arraySuffix (S k).
Proof.
  induction k as [|k IH]; [reflexivity|].
  change (arraySuffix (S k)) with ("[]" +:+ arraySuffix k).
  rewrite append_assoc, IH. reflexivity.
Qed.

(** X25. The type that [getTypeScriptType] prints is always one of five base
    types followed by array suffixes; the type of an empty array is
    [any[]], and the type of any other array is the type of its first
    element followed by [[]], whatever its other elements are. *)
Theorem getTypeScriptType_shape (value : JsValue) :
  (exists base k,
      In base ["string"; "number"; "boolean"; "Record<string, any>"; "any"]
      /\ getTypeScriptType value = base +:+ arraySuffix k)
  /\ getTypeScriptType (JArr []) = "any[]"
  /\ (forall rest rest',
        getTypeScriptType (JArr (value :: rest))
        = getTypeScriptType (JArr (value :: rest')))
  /\ (forall rest,
        getTypeScriptType (JArr (value :: rest))
        = getTypeScriptType value +:+ "[]").
Proof.
  split; [|repeat split].
  revert value. fix IH 1. intros [| | b | n | s | items | fields].
  - exists "any", 0%nat. split; [cbn; tauto | reflexivity].
  - exists "any", 0%nat. split; [cbn; tauto | reflexivity].
  - exists "boolean", 0%nat. split; [cbn; tauto | reflexivity].
  - exists "number", 0%nat. split; [cbn; tauto | reflexivity].
  - exists "string", 0%nat. split; [cbn; tauto | reflexivity].
  - destruct items as [|first rest].
    + exists "any", 1%nat. split; [cbn; tauto | reflexivity].
    + destruct (IH first) as (base & k & Hbase & Hk).
      exists base, (S k). split; [exact Hbase|].
      cbn [getTypeScriptType]. rewrite Hk, append_assoc, arraySuffix_snoc.
      reflexivity.
  - exists "Record<string, any>", 0%nat. split; [cbn; tauto | reflexivity].
Qed.

(** ** [JSON.stringify] with a list of keys, and the hash of the API *)

Lemma stringify_property_undefined (keys : list string) (k : string)
    (fields : list (string * JsValue)) :
  lookupField k fields = JUndefined ->
  (fix property (fs : list (string * JsValue)) : option string :=
     match fs with
     | [] => None
     | (k', v) :: rest =>
         if String.eqb k k' then stringify keys v else property rest
     end) fields = None.
Proof.
  induction fields as [|[k' v] rest IH]; [reflexivity|].
  cbn [lookupField]. destruct (String.eqb k k').
  - intros ->. reflexivity.
  - exact IH.
Qed.

(** An object without any of the listed keys is written as the empty
    object, whatever it holds. *)
Lemma stringify_object_without (keys : list string)
    (fields : list (string * JsValue)) :
  (forall k, In k keys -> lookupField k fields = JUndefined) ->
  stringify keys (JObj fields) = Some "{}".
Proof.
  intros Hnone. cbn [stringify].
  assert (Hmembers : forall ks,
            (forall k, In k ks -> lookupField k fields = JUndefined) ->
            (fix members (ks : list string) : list string :=
               match ks with
               | [] => []
               | k :: ks' =>
                   match
                     (fix property (fs : list (string * JsValue))
                        : option string :=
                        match fs with
                        | [] => None
                        | (k', v) :: rest =>
                            if String.eqb k k' then stringify keys v
                            else property rest
                        end) fields
                   with
                   | Some s => (quoteJSON k +:+ ":" +:+ s) :: members ks'
                   | None => members ks'
                   end
               end) ks = []).
  { induction ks as [|k ks IH]; intros Hks; [reflexivity|].
    rewrite (stringify_property_undefined keys k fields)
      by (apply Hks; left; reflexivity).
    apply IH. intros k0 Hk0. apply Hks. right. exact Hk0. }
  rewrite (Hmembers keys Hnone). reflexivity.
Qed.

Lemma stringify_combined (config spec : JsValue) :
  stringify ["config"; "spec"] (JObj [("config", config); ("spec", spec)])
  = Some ("{" +:+
          joinWith ","
            (match stringify ["config"; "spec"] config with
             | Some s => [quoteJSON "config" +:+ ":" +:+ s]
             | None => []
             end ++
             match stringify ["config"; "spec"] spec with
             | Some s => [quoteJSON "spec" +:+ ":" +:+ s]
             | None => []
             end)%list
          +:+ "}").
Proof.
  change (stringify ["config"; "spec"]
            (JObj [("config", config); ("spec", spec)]))
    with (Some ("{" +:+
                joinWith ","
                  (match stringify ["config"; "spec"] config with
                   | Some s =>
                       (quoteJSON "config" +:+ ":" +:+ s)
                       :: match stringify ["config"; "spec"] spec with
                          | Some s' => [quoteJSON "spec" +:+ ":" +:+ s']
                          | None => []
                          end
                   | None =>
                       match stringify ["config"; "spec"] spec with
                       | Some s' => [quoteJSON "spec" +:+ ":" +:+ s']
                       | None => []
                       end
                   end)
                +:+ "}")).
  destruct (stringify ["config"; "spec"] config),
    (stringify ["config"; "spec"] spec); reflexivity.
Qed.

(** X26. The hash of the API does not see the content of its inputs. The sorted
    keys of [combinedData] are handed to [JSON.stringify] as its replacer,
    and so are a filter on the properties at every depth: for a
    configuration and a specification that are objects with no property
    named [config] or [spec], the text that is hashed is always the same
    and so is the hash. *)
Theorem calculateApiHash_blind (sha256 : string -> string)
    (config spec config' spec' : list (string * JsValue)) :
  withoutHashKeys config -> withoutHashKeys spec ->
  withoutHashKeys config' -> withoutHashKeys spec' ->
  calculateApiHash sha256 (JObj config) (JObj spec)
  = calculateApiHash sha256 (JObj config') (JObj spec')
  /\ calculateApiHash sha256 (JObj config) (JObj spec)
     = Some (sha256 ("{" +:+ quoteJSON "config" +:+ ":{},"
                     +:+ quoteJSON "spec" +:+ ":{}}")).
Proof.
  assert (Hone : forall c s, withoutHashKeys c -> withoutHashKeys s ->
            calculateApiHash sha256 (JObj c) (JObj s)
            = Some (sha256 ("{" +:+ quoteJSON "config" +:+ ":{},"
                            +:+ quoteJSON "spec" +:+ ":{}}"))).
  { intros c s [Hc1 Hc2] [Hs1 Hs2]. unfold calculateApiHash.
    rewrite stringify_combined.
    rewrite !stringify_object_without
      by (intros k [<- | [<- | []]]; assumption).
    reflexivity. }
  intros H1 H2 H3 H4. split; [|apply Hone; assumption].
  rewrite !Hone by assumption. reflexivity.
Qed.

Lemma calculateApiHash_blind_witness :
  calculateApiHash (fun s => s) (JObj (apiVersion "1")) (JObj [])
  = calculateApiHash (fun s => s) (JObj (apiVersion "2")) (JObj []).
Proof.
  apply (calculateApiHash_blind (fun s => s) (apiVersion "1") []
           (apiVersion "2") []); split; reflexivity.
Defined.

Lemma append_cancel_r (a b t : string) : a +:+ t = b +:+ t -> a = b.
Proof.
  intros H.
  assert (Hl : forall s u, list_ascii_of_string (s +:+ u)
                           = (list_ascii_of_string s
                              ++ list_ascii_of_string u)%list).
  { induction s as [|c s IH]; intros u; [reflexivity|].
    rewrite append_String. cbn. rewrite IH. reflexivity. }
  apply (f_equal list_ascii_of_string) in H. rewrite !Hl in H.
  apply app_inv_tail in H.
  rewrite <- (string_of_list_ascii_of_string a),
          <- (string_of_list_ascii_of_string b), H.
  reflexivity.
Qed.

(** X23. No two methods of the services send the same request: the method and
    the endpoint of a request tell which operation it is, whatever the
    identifiers and payloads are. *)
Theorem requestOf_tells_operation (c1 c2 : ServiceCall) :
  method (requestOf c1) = method (requestOf c2) ->
  endpoint (requestOf c1) = endpoint (requestOf c2) ->
  operationName c1 = operationName c2.
Proof.
  destruct c1, c2; cbn; intros Hm He; try reflexivity;
    try discriminate Hm; try discriminate He.
Qed.


Lemma requestOf_tells_operation_witness :
  operationName (ProgramGetProgram "p1") = operationName (ProgramGetProgram "p1").
Proof.
  apply (requestOf_tells_operation (ProgramGetProgram "p1")
           (ProgramGetProgram "p1")); reflexivity.
Defined.

(** X24. The identifier of a call can be read back from its endpoint: two calls
    of the same method with different identifiers never share an
    endpoint. *)
Theorem requestOf_tells_identifier (a b : string) :
  (endpoint (requestOf (PatientGetSummary a))
   = endpoint (requestOf (PatientGetSummary b)) -> a = b)
  /\ (endpoint (requestOf (PrescriptionGetPrescription a))
      = endpoint (requestOf (PrescriptionGetPrescription b)) -> a = b)
  /\ (endpoint (requestOf (ProgramGetProgram a))
      = endpoint (requestOf (ProgramGetProgram b)) -> a = b)
  /\ (forall p q, endpoint (requestOf (ProgramEnrollPatient a p))
                  = endpoint (requestOf (ProgramEnrollPatient b q)) -> a = b)
  /\ (endpoint (requestOf (ApiKeyRevokeKey a))
      = endpoint (requestOf (ApiKeyRevokeKey b)) -> a = b).
Proof.
  repeat split; cbn; try intros p q; intros H; inversion H;
    eauto using append_cancel_r.
Qed.

Lemma requestOf_tells_identifier_witness :
  endpoint (requestOf (PatientGetSummary "abc")) = "/patients/abc/summary"
  /\ "abc" = "abc".
Proof.
  split; [reflexivity|].
  destruct (requestOf_tells_identifier "abc" "abc") as [H _].
  apply H. reflexivity.
Defined.
